(** * EKS observability platform: configuration, Auto Mode callback and
      dependency graph of the CDK application

    A shallow embedding of the parts of the CDK application that carry
    logic:

    - [EnvironmentConfig] and the mode selection of [app.py];
    - [AutoModeLambda.on_event], the custom-resource handler that switches
      EKS Auto Mode on and off;
    - the construct tree and the [add_dependency] edges that [app.py] and
      the constructs it instantiates declare, as a program in a small
      builder monad.  *)

From Stdlib Require Import String Ascii List Bool Arith Lia.
Import ListNotations.
Local Set Warnings "-register-all".
Local Open Scope string_scope.
Local Open Scope list_scope.

(** ** Python string helpers *)

Module PyStr.

Definition is_lower (c : ascii) : bool :=
  let n := nat_of_ascii c in ((97 <=? n) && (n <=? 122))%nat.

Definition is_upper (c : ascii) : bool :=
  let n := nat_of_ascii c in ((65 <=? n) && (n <=? 90))%nat.

Definition to_upper (c : ascii) : ascii :=
  if is_lower c then ascii_of_nat (nat_of_ascii c - 32) else c.

Definition to_lower (c : ascii) : ascii :=
  if is_upper c then ascii_of_nat (nat_of_ascii c + 32) else c.

(** [s.replace(c, '')] for a one-character [c]. *)
Fixpoint remove_char (c : ascii) (s : string) : string :=
  match s with
  | EmptyString => EmptyString
  | String d s' =>
      if Ascii.eqb c d then remove_char c s' else String d (remove_char c s')
  end.

(** [s.title()] on ASCII text: a cased character that follows an uncased
    one is upper-cased, a cased character that follows a cased one is
    lower-cased. *)
Fixpoint title_from (prev_cased : bool) (s : string) : string :=
  match s with
  | EmptyString => EmptyString
  | String c s' =>
      let cased := is_lower c || is_upper c in
      let c' := if prev_cased then to_lower c else to_upper c in
      String c' (title_from cased s')
  end.

Definition title (s : string) : string := title_from false s.

(** Truthiness of an optional string: [None] and [''] are falsy. *)
Definition truthy (o : option string) : bool :=
  match o with
  | Some s => negb (String.eqb s "")
  | None => false
  end.

(** [o or default]. *)
Definition or_default (o : option string) (default : string) : string :=
  match o with
  | Some s => if String.eqb s "" then default else s
  | None => default
  end.

End PyStr.

(** ** eks_platform/config/environment_config.py *)

Record NetworkConfig := mkNetworkConfig {
  vpc_cidr : string;
  max_azs : nat;
  nat_gateways : nat;
  enable_flow_logs : bool
}.

Record ComputeConfig := mkComputeConfig {
  mode : string;
  fargate_profiles : list string;
  auto_mode_enabled : bool
}.

Record EksConfig := mkEksConfig {
  cluster_name : string;
  version : string;
  compute : ComputeConfig;
  admin_user_arn : option string;
  admin_role_arn : option string
}.

Record MonitoringConfig := mkMonitoringConfig {
  prometheus_enabled : bool;
  grafana_enabled : bool;
  retention_days : nat;
  scrape_interval : string;
  namespace : string
}.

Record EnvironmentConfig := mkEnvironmentConfig {
  environment_name : string;
  account : option string;
  region : option string;
  network : NetworkConfig;
  eks : EksConfig;
  monitoring : MonitoringConfig
}.

(** Dataclass defaults. *)
Definition default_vpc_cidr : string := "10.0.0.0/16".
Definition default_max_azs : nat := 2.
Definition default_fargate_profiles : list string :=
  ["default"; "monitoring"; "kube-system"].
Definition default_scrape_interval : string := "15s".
Definition default_monitoring_namespace : string := "monitoring".

(** [EnvironmentConfig.development]: the Auto Mode profile. *)
Definition development (account region : option string) : EnvironmentConfig :=
  {| environment_name := "dev";
     account := account;
     region := region;
     network := {| vpc_cidr := default_vpc_cidr;
                   max_azs := default_max_azs;
                   nat_gateways := 1;
                   enable_flow_logs := false |};
     eks := {| cluster_name := "dev-eks-automode";
               version := "1.32";
               compute := {| mode := "auto-mode";
                             fargate_profiles := default_fargate_profiles;
                             auto_mode_enabled := true |};
               admin_user_arn := Some "arn:aws:iam::123456789:user/user-cli";
               admin_role_arn := None |};
     monitoring := {| prometheus_enabled := true;
                      grafana_enabled := true;
                      retention_days := 7;
                      scrape_interval := default_scrape_interval;
                      namespace := default_monitoring_namespace |} |}.

(** [EnvironmentConfig.fargate_development]: the Fargate profile. *)
Definition fargate_development (account region : option string)
  : EnvironmentConfig :=
  {| environment_name := "dev-fargate";
     account := account;
     region := region;
     network := {| vpc_cidr := default_vpc_cidr;
                   max_azs := default_max_azs;
                   nat_gateways := 1;
                   enable_flow_logs := false |};
     eks := {| cluster_name := "dev-eks-fargate";
               version := "1.32";
               compute := {| mode := "fargate";
                             fargate_profiles :=
                               ["default"; "monitoring"; "opentelemetry";
                                "kube-system"];
                             auto_mode_enabled := false |};
               admin_user_arn := Some "arn:aws:iam::123456789:user/user-cli";
               admin_role_arn := None |};
     monitoring := {| prometheus_enabled := true;
                      grafana_enabled := true;
                      retention_days := 7;
                      scrape_interval := default_scrape_interval;
                      namespace := default_monitoring_namespace |} |}.

(** app.py, lines 41-44: the branch on the selector. *)
Definition select_config (compute_mode : string)
    (account region : option string) : EnvironmentConfig :=
  if String.eqb compute_mode "fargate"
  then fargate_development account region
  else development account region.

(** app.py, line 31: [try_get_context("compute_mode") or "auto-mode"]. *)
Definition compute_mode_of_context (ctx : option string) : string :=
  PyStr.or_default ctx "auto-mode".

Definition resolve_config (ctx account region : option string)
  : EnvironmentConfig :=
  select_config (compute_mode_of_context ctx) account region.

(** ** eks_platform/infrastructure/compute/auto_mode_lambda.py *)

Module AutoModeLambda.

(** The event the provider framework hands to the handler. *)
Record ResourceProperties := mkResourceProperties {
  ClusterName : string;
  NodeRoleArn : string
}.

Record Event := mkEvent {
  RequestType : string;
  Properties : ResourceProperties
}.

(** Arguments of [eks_client.update_cluster_config]. *)
Record ComputeConfigArg := mkComputeConfigArg {
  enabled : bool;
  nodeRoleArn : option string;
  nodePools : list string
}.

Record UpdateClusterConfig := mkUpdateClusterConfig {
  name : string;
  computeConfig : ComputeConfigArg;
  elasticLoadBalancing : option bool;
  blockStorage : option bool
}.

(** What the handler can see of an exception: a botocore [ClientError]
    with its [response['Error']['Code']], or any other exception. *)
Inductive exn : Type :=
| ClientError (code : string) (message : string)
| OtherException (class_name : string) (message : string).

(** The EKS client: the call either raises or answers with
    [response['update']['id']]. *)
Definition EksClient : Type := UpdateClusterConfig -> exn + string.

Record DataDict := mkData {
  UpdateId : option string;
  Status : string
}.

Record Payload := mkPayload {
  PhysicalResourceId : string;
  Data : DataDict
}.

(** Result of a call: a returned value ([None] when the function falls
    off its end) or a raised exception. *)
Inductive outcome : Type :=
| Returns (value : option Payload)
| Raises (e : exn).

Definition physical_id (cluster_name : string) : string :=
  cluster_name ++ "-auto-mode".

Definition enable_request (cluster_name node_role_arn : string)
  : UpdateClusterConfig :=
  {| name := cluster_name;
     computeConfig := {| enabled := true;
                         nodeRoleArn := Some node_role_arn;
                         nodePools := ["general-purpose"; "system"] |};
     elasticLoadBalancing := Some true;
     blockStorage := Some true |}.

Definition disable_request (cluster_name : string) : UpdateClusterConfig :=
  {| name := cluster_name;
     computeConfig := {| enabled := false;
                         nodeRoleArn := None;
                         nodePools := [] |};
     elasticLoadBalancing := None;
     blockStorage := None |}.

(** [x in l] for strings. *)
Definition str_in (x : string) (l : list string) : bool :=
  existsb (String.eqb x) l.

(** The body of the [try] block: [inl e] when the client call raises. *)
Definition try_body (eks_client : EksClient)
    (request_type cluster_name node_role_arn : string)
  : exn + option Payload :=
  if str_in request_type ["Create"; "Update"] then
    match eks_client (enable_request cluster_name node_role_arn) with
    | inl e => inl e
    | inr update_id =>
        inr (Some {| PhysicalResourceId := physical_id cluster_name;
                     Data := {| UpdateId := Some update_id;
                                Status := "INITIATED" |} |})
    end
  else if String.eqb request_type "Delete" then
    match eks_client (disable_request cluster_name) with
    | inl e => inl e
    | inr update_id =>
        inr (Some {| PhysicalResourceId := physical_id cluster_name;
                     Data := {| UpdateId := Some update_id;
                                Status := "DISABLED" |} |})
    end
  else inr None.

(** The two [except] clauses. *)
Definition handler (request_type cluster_name : string) (e : exn) : outcome :=
  match e with
  | ClientError code _ =>
      if String.eqb request_type "Delete" then
        if String.eqb code "ResourceNotFoundException" then
          Returns (Some {| PhysicalResourceId := physical_id cluster_name;
                           Data := {| UpdateId := None;
                                      Status := "NOT_FOUND" |} |})
        else Raises e
      else Raises e
  | OtherException _ _ => Raises e
  end.

Definition on_event (eks_client : EksClient) (event : Event) : outcome :=
  let request_type := RequestType event in
  let cluster_name := ClusterName (Properties event) in
  let node_role_arn := NodeRoleArn (Properties event) in
  match try_body eks_client request_type cluster_name node_role_arn with
  | inr v => Returns v
  | inl e => handler request_type cluster_name e
  end.

(** The client call that [on_event] makes for an event, if any. *)
Definition client_call (event : Event) : option UpdateClusterConfig :=
  if str_in (RequestType event) ["Create"; "Update"] then
    Some (enable_request (ClusterName (Properties event))
                         (NodeRoleArn (Properties event)))
  else if String.eqb (RequestType event) "Delete" then
    Some (disable_request (ClusterName (Properties event)))
  else None.

Definition is_not_found (e : exn) : bool :=
  match e with
  | ClientError code _ => String.eqb code "ResourceNotFoundException"
  | OtherException _ _ => false
  end.

Definition not_found_payload (cluster_name : string) : Payload :=
  {| PhysicalResourceId := physical_id cluster_name;
     Data := {| UpdateId := None; Status := "NOT_FOUND" |} |}.

Definition request_types : list string := ["Create"; "Update"; "Delete"].

(** Sample clients and events. *)
Definition client_not_found : EksClient :=
  fun _ => inl (ClientError "ResourceNotFoundException" "No cluster found").

Definition client_throttled : EksClient :=
  fun _ => inl (ClientError "ThrottlingException" "Rate exceeded").

Definition client_ok : EksClient := fun _ => inr "update-1".

Definition sample_properties : ResourceProperties :=
  {| ClusterName := "dev-eks-automode";
     NodeRoleArn := "arn:aws:iam::123456789:role/node" |}.

Definition delete_event : Event :=
  {| RequestType := "Delete"; Properties := sample_properties |}.

Definition create_event : Event :=
  {| RequestType := "Create"; Properties := sample_properties |}.

Definition read_event : Event :=
  {| RequestType := "Read"; Properties := sample_properties |}.

End AutoModeLambda.

(** ** The construct tree and its dependency edges

    What the application hands to synthesis is a tree of constructs
    (every construct is created in a scope) and a list of ordering edges
    declared with [node.add_dependency].  The program below rebuilds both
    by running the constructors in the order [app.py] runs them. *)

Module Cdk.

(** A construct is referred to by its position in creation order, the way
    a Python variable holds the object. *)
Definition ref : Type := nat.

(** Python literals of the manifests. *)
Inductive value : Type :=
| VStr (s : string)
| VList (l : list value)
| VDict (d : list (string * value)).

Definition dict : Type := list (string * value).

Fixpoint dict_get (k : string) (d : dict) : option value :=
  match d with
  | [] => None
  | (k', v) :: d' => if String.eqb k k' then Some v else dict_get k d'
  end.

(** The fields of a Kubernetes manifest that ordering and placement read.
    Container lists, volumes, ports, probes, rule lists and config file
    bodies are payload and are left out. *)
Record manifest := mkManifest {
  m_kind : string;
  m_name : string;
  m_namespace : option string;
  m_role_ref : option string;        (* roleRef.name *)
  m_scale_target : option string;    (* spec.scaleTargetRef.name *)
  m_pods_metric : option string;     (* spec.metrics[].pods.metric.name *)
  m_pod_spec : option dict           (* spec.template.spec, without its
                                        containers and volumes entries *)
}.

Definition k8s_object (kind name : string) (ns : option string) : manifest :=
  {| m_kind := kind; m_name := name; m_namespace := ns;
     m_role_ref := None; m_scale_target := None; m_pods_metric := None;
     m_pod_spec := None |}.

Definition k8s_deployment (name ns : string) (pod_spec : dict) : manifest :=
  {| m_kind := "Deployment"; m_name := name; m_namespace := Some ns;
     m_role_ref := None; m_scale_target := None; m_pods_metric := None;
     m_pod_spec := Some pod_spec |}.

Definition k8s_cluster_role_binding (name role : string) : manifest :=
  {| m_kind := "ClusterRoleBinding"; m_name := name; m_namespace := None;
     m_role_ref := Some role; m_scale_target := None; m_pods_metric := None;
     m_pod_spec := None |}.

Definition k8s_hpa (name ns target metric : string) : manifest :=
  {| m_kind := "HorizontalPodAutoscaler"; m_name := name;
     m_namespace := Some ns;
     m_role_ref := None; m_scale_target := Some target;
     m_pods_metric := Some metric; m_pod_spec := None |}.

(** The classes of construct the application instantiates. *)
Inductive kind : Type :=
| App
| Stack
| Construct                       (* a bare [Construct] subclass *)
| CfnCondition
| CfnOutput
| ImportedUser
| ImportedRole
| Role
| Cluster
| KubernetesManifest (m : manifest)
| ServiceAccount (sa_name sa_namespace : string)
| FargateProfile (selector_namespace : string)
| LambdaFunction
| Provider
| CustomResource
| CfnAccessEntry
| CfnAddon (addon_name : string)
| CfnJson.

(** Constructs that stand for provisioned resources.  Apps, stacks, bare
    constructs, conditions, outputs and imported principals provision
    nothing of their own. *)
Definition is_resource (k : kind) : bool :=
  match k with
  | App | Stack | Construct | CfnCondition | CfnOutput
  | ImportedUser | ImportedRole => false
  | _ => true
  end.

Record construct := mkConstruct {
  id : string;
  scope : option ref;
  kind_of : kind
}.

Record tree := mkTree {
  constructs : list construct;
  dependencies : list (ref * ref);        (* [x.node.add_dependency(y)] *)
  stack_dependencies : list (ref * ref)   (* [stack.add_dependency(other)] *)
}.

Definition empty : tree :=
  {| constructs := []; dependencies := []; stack_dependencies := [] |}.

(** Construction fails when a scope already has a child of that name, and
    [add_dependency] fails on [None]. *)
Inductive error : Type :=
| DuplicateId (in_scope : option ref) (name : string)
| NoneDependency (dependent : ref).

Definition M (A : Type) : Type := tree -> error + (A * tree).

Definition ret {A} (a : A) : M A := fun t => inr (a, t).

Definition bind {A B} (c : M A) (k : A -> M B) : M B :=
  fun t => match c t with
           | inl e => inl e
           | inr (a, t') => k a t'
           end.

Declare Scope build_scope.
Delimit Scope build_scope with build.
Notation "x <- c ;; k" := (bind c (fun x => k))
  (at level 61, c at next level, right associativity) : build_scope.
Notation "c ;; k" := (bind c (fun _ => k))
  (at level 61, right associativity) : build_scope.
Local Open Scope build_scope.

Definition same_scope (a b : option ref) : bool :=
  match a, b with
  | Some x, Some y => Nat.eqb x y
  | None, None => true
  | _, _ => false
  end.

Definition new_construct (sc : option ref) (name : string) (k : kind) : M ref :=
  fun t =>
    if existsb (fun c => same_scope (scope c) sc && String.eqb (id c) name)
               (constructs t)
    then inl (DuplicateId sc name)
    else inr (length (constructs t),
              {| constructs := constructs t ++ [mkConstruct name sc k];
                 dependencies := dependencies t;
                 stack_dependencies := stack_dependencies t |}).

(** [x.node.add_dependency(y)]. *)
Definition add_dependency (x y : ref) : M unit :=
  fun t => inr (tt, {| constructs := constructs t;
                       dependencies := dependencies t ++ [(x, y)];
                       stack_dependencies := stack_dependencies t |}).

(** [x.node.add_dependency(y)] where [y] is an argument that defaults to
    [None]. *)
Definition add_dependency_opt (x : ref) (y : option ref) : M unit :=
  match y with
  | Some y' => add_dependency x y'
  | None => fun _ => inl (NoneDependency x)
  end.

(** [stack.add_dependency(other)]. *)
Definition stack_add_dependency (x y : ref) : M unit :=
  fun t => inr (tt, {| constructs := constructs t;
                       dependencies := dependencies t;
                       stack_dependencies := stack_dependencies t ++ [(x, y)] |}).

Fixpoint for_each {A} (l : list A) (body : A -> M unit) : M unit :=
  match l with
  | [] => ret tt
  | a :: l' => body a ;; for_each l' body
  end.

(** The [eks.Cluster] methods define their constructs in the scope of the
    cluster they are called on: [add_manifest(id, ...)] creates
    [manifest-<id>], [add_service_account(id, ...)] creates [<id>] and
    [add_fargate_profile(id, ...)] creates [fargate-profile-<id>], each a
    child of the cluster. *)
Definition add_manifest (cluster : ref) (name : string) (m : manifest) : M ref :=
  new_construct (Some cluster) ("manifest-" ++ name) (KubernetesManifest m).

Definition add_service_account (cluster : ref) (name sa_name sa_ns : string)
  : M ref :=
  new_construct (Some cluster) name (ServiceAccount sa_name sa_ns).

Definition add_fargate_profile (cluster : ref) (name selector_ns : string)
  : M ref :=
  new_construct (Some cluster) ("fargate-profile-" ++ name)
                (FargateProfile selector_ns).

End Cdk.

(** ** Compute-mode overlays and the constructs of the platform *)

Import Cdk.
Local Open Scope build_scope.

(** One toleration entry on the [eks.amazonaws.com/compute-type] taint. *)
Definition compute_type_toleration (v : string) : value :=
  VDict [("key", VStr "eks.amazonaws.com/compute-type");
         ("operator", VStr "Equal");
         ("value", VStr v);
         ("effect", VStr "NoSchedule")].

(** [self.compute_config and self.compute_config.mode == "fargate"]. *)
Definition is_fargate (compute_config : option ComputeConfig) : bool :=
  match compute_config with
  | Some c => String.eqb (mode c) "fargate"
  | None => false
  end.

(** The [_get_pod_spec] method, which the Prometheus, sample, OTEL, Go and
    Java constructs each define with the same body. *)
Definition fargate_pod_spec : dict :=
  [("nodeSelector", VDict [("eks.amazonaws.com/compute-type", VStr "fargate")]);
   ("tolerations", VList [compute_type_toleration "fargate"])].

(** ** platform/monitoring/prometheus_construct.py *)

Module PrometheusConstruct.

Record t := mk {
  self : ref;
  cluster : ref;
  compute_config : option ComputeConfig;
  monitoring_namespace : ref;
  cluster_role : ref;
  cluster_role_binding : ref
}.

Definition _get_pod_spec (compute_config : option ComputeConfig) : dict :=
  if is_fargate compute_config then fargate_pod_spec else [].

Definition _create_rbac (cluster monitoring_namespace : ref) : M (ref * ref) :=
  cluster_role <- add_manifest cluster "PrometheusClusterRole"
      (k8s_object "ClusterRole" "prometheus-cluster-role" None) ;;
  cluster_role_binding <- add_manifest cluster "PrometheusClusterRoleBinding"
      (k8s_cluster_role_binding "prometheus-cluster-role-binding"
                            "prometheus-cluster-role") ;;
  add_dependency cluster_role_binding cluster_role ;;
  add_dependency cluster_role_binding monitoring_namespace ;;
  ret (cluster_role, cluster_role_binding).

Definition init (scope : ref) (construct_id : string) (cluster : ref)
    (monitoring_namespace : option ref)
    (compute_config : option ComputeConfig) : M t :=
  self <- new_construct (Some scope) construct_id Construct ;;
  monitoring_namespace <-
    match monitoring_namespace with
    | None => add_manifest cluster "MonitoringNamespacePrometheus"
                (k8s_object "Namespace" "monitoring" None)
    | Some ns => ret ns
    end ;;
  prometheus_sa <- add_service_account cluster "prometheus-sa"
      "amp-iamproxy-service-account" "monitoring" ;;
  add_dependency prometheus_sa monitoring_namespace ;;
  rbac <- _create_rbac cluster monitoring_namespace ;;
  prometheus_config <- add_manifest cluster "PrometheusConfigMap"
      (k8s_object "ConfigMap" "prometheus-server-conf" (Some "monitoring")) ;;
  add_dependency prometheus_config monitoring_namespace ;;
  prometheus_deployment <- add_manifest cluster "PrometheusDeployment"
      (k8s_deployment "prometheus-server" "monitoring"
         (_get_pod_spec compute_config
          ++ [("serviceAccountName", VStr "amp-iamproxy-service-account");
              ("dnsPolicy", VStr "ClusterFirst")])) ;;
  add_dependency prometheus_deployment prometheus_config ;;
  add_dependency prometheus_deployment prometheus_sa ;;
  add_dependency prometheus_deployment (snd rbac) ;;
  prometheus_service <- add_manifest cluster "PrometheusService"
      (k8s_object "Service" "prometheus-service" (Some "monitoring")) ;;
  add_dependency prometheus_service prometheus_deployment ;;
  _ <- new_construct (Some self) "PrometheusServiceName" CfnOutput ;;
  ret {| self := self; cluster := cluster; compute_config := compute_config;
         monitoring_namespace := monitoring_namespace;
         cluster_role := fst rbac; cluster_role_binding := snd rbac |}.

End PrometheusConstruct.

(** ** platform/monitoring/prometheus_adapter_construct.py *)

Module PrometheusAdapterConstruct.

Local Open Scope string_scope.

Definition nl : string := String (ascii_of_nat 10) EmptyString.
Definition dquote : string := String (ascii_of_nat 34) EmptyString.
Definition q (s : string) : string := dquote ++ s ++ dquote.
Definition unlines (l : list string) : string :=
  fold_right (fun line rest => line ++ nl ++ rest) "" l.

(** The lines of the text that [_get_auto_mode_config] returns, between
    the opening and the closing line break. *)
Definition auto_mode_config_lines : list string :=
  [ "rules:";
    "# Java OTEL App - using http_requests_total";
    "- seriesQuery: 'http_requests_total{app="
      ++ q "java-otel-sample-app"
      ++ "}'";
    "  resources:";
    "    overrides:";
    "      kubernetes_namespace: {resource: " ++ q "namespace" ++ "}";
    "      kubernetes_pod_name: {resource: " ++ q "pod" ++ "}";
    "  name:";
    "    as: " ++ q "java_app_requests_rate";
    "  metricsQuery: 'rate(http_requests_total{app="
      ++ q "java-otel-sample-app"
      ++ ",<<.LabelMatchers>>}[1m]) * 60'";
    "";
    "# Go OTEL App - using http_requests_total";
    "- seriesQuery: 'http_requests_total{app="
      ++ q "go-otel-sample-app"
      ++ "}'";
    "  resources:";
    "    overrides:";
    "      kubernetes_namespace: {resource: " ++ q "namespace" ++ "}";
    "      kubernetes_pod_name: {resource: " ++ q "pod" ++ "}";
    "  name:";
    "    as: " ++ q "go_app_requests_rate";
    "  metricsQuery: 'rate(http_requests_total{app="
      ++ q "go-otel-sample-app"
      ++ ",<<.LabelMatchers>>}[1m]) * 60'";
    "";
    "# Sample Metrics App - using sample_app_requests_total";
    "- seriesQuery: 'sample_app_requests_total{app="
      ++ q "sample-metrics-app"
      ++ "}'";
    "  resources:";
    "    overrides:";
    "      kubernetes_namespace: {resource: " ++ q "namespace" ++ "}";
    "      kubernetes_pod_name: {resource: " ++ q "pod" ++ "}";
    "  name:";
    "    as: " ++ q "sample_app_requests_rate";
    "  metricsQuery: 'rate(sample_app_requests_total{app="
      ++ q "sample-metrics-app"
      ++ ",<<.LabelMatchers>>}[1m]) * 60'";
    "";
    "# OTEL Sample App - using pod_cpu_utilization";
    "- seriesQuery: 'pod_cpu_utilization{app="
      ++ q "otel-sample-app"
      ++ "}'";
    "  resources:";
    "    overrides:";
    "      kubernetes_namespace: {resource: " ++ q "namespace" ++ "}";
    "      kubernetes_pod_name: {resource: " ++ q "pod" ++ "}";
    "  name:";
    "    as: " ++ q "pod_cpu_utilization";
    "  metricsQuery: 'pod_cpu_utilization{app="
      ++ q "otel-sample-app"
      ++ ",<<.LabelMatchers>>}'" ].

(** The lines of the text that [_get_fargate_config] returns. *)
Definition fargate_config_lines : list string :=
  [ "rules:";
    "# Java OTEL App - Fargate (same as auto-mode, metrics don't have compute_type label)";
    "- seriesQuery: 'http_requests_total{app="
      ++ q "java-otel-sample-app"
      ++ "}'";
    "  resources:";
    "    overrides:";
    "      kubernetes_namespace: {resource: " ++ q "namespace" ++ "}";
    "      kubernetes_pod_name: {resource: " ++ q "pod" ++ "}";
    "  name:";
    "    as: " ++ q "java_app_requests_rate";
    "  metricsQuery: 'rate(http_requests_total{app="
      ++ q "java-otel-sample-app"
      ++ ",<<.LabelMatchers>>}[1m]) * 60'";
    "";
    "# Go OTEL App - Fargate";
    "- seriesQuery: 'http_requests_total{app="
      ++ q "go-otel-sample-app"
      ++ "}'";
    "  resources:";
    "    overrides:";
    "      kubernetes_namespace: {resource: " ++ q "namespace" ++ "}";
    "      kubernetes_pod_name: {resource: " ++ q "pod" ++ "}";
    "  name:";
    "    as: " ++ q "go_app_requests_rate";
    "  metricsQuery: 'rate(http_requests_total{app="
      ++ q "go-otel-sample-app"
      ++ ",<<.LabelMatchers>>}[1m]) * 60'";
    "";
    "# Sample Metrics App - Fargate";
    "- seriesQuery: 'sample_app_requests_total{app="
      ++ q "sample-metrics-app"
      ++ "}'";
    "  resources:";
    "    overrides:";
    "      kubernetes_namespace: {resource: " ++ q "namespace" ++ "}";
    "      kubernetes_pod_name: {resource: " ++ q "pod" ++ "}";
    "  name:";
    "    as: " ++ q "sample_app_requests_rate";
    "  metricsQuery: 'rate(sample_app_requests_total{app="
      ++ q "sample-metrics-app"
      ++ ",<<.LabelMatchers>>}[1m]) * 60'";
    "";
    "# OTEL Sample App - Fargate CPU utilization";
    "- seriesQuery: 'pod_cpu_utilization{app="
      ++ q "otel-sample-app"
      ++ "}'";
    "  resources:";
    "    overrides:";
    "      kubernetes_namespace: {resource: " ++ q "namespace" ++ "}";
    "      kubernetes_pod_name: {resource: " ++ q "pod" ++ "}";
    "  name:";
    "    as: " ++ q "pod_cpu_utilization";
    "  metricsQuery: 'pod_cpu_utilization{app="
      ++ q "otel-sample-app"
      ++ ",<<.LabelMatchers>>}'" ].

Definition _get_auto_mode_config : string :=
  nl ++ unlines auto_mode_config_lines.

Definition _get_fargate_config : string :=
  nl ++ unlines fargate_config_lines.

(** [_get_adapter_config]. *)
Definition _get_adapter_config (compute_mode : string) : string :=
  if String.eqb compute_mode "fargate"
  then _get_fargate_config
  else _get_auto_mode_config.

(** [_get_tolerations]: both branches return one toleration; the
    [CfnOutput] after them is never reached. *)
Definition _get_tolerations (compute_mode : string) : list value :=
  if String.eqb compute_mode "fargate"
  then [compute_type_toleration "fargate"]
  else [compute_type_toleration "prometheus-adapter"].

(** A YAML comment line, and the lines of a document that are not. *)
Definition is_comment (line : string) : bool := String.prefix "#" line.

Definition rule_lines (lines : list string) : list string :=
  filter (fun line => negb (is_comment line)) lines.

Record t := mk {
  self : ref;
  monitoring_namespace : ref;
  prometheus_adapter_deployment : ref;
  prometheus_adapter_apiservice : ref
}.

Definition init (scope : ref) (construct_id : string) (cluster : ref)
    (monitoring_namespace : option ref) (compute_mode : string) : M t :=
  self <- new_construct (Some scope) construct_id Construct ;;
  monitoring_namespace <-
    match monitoring_namespace with
    | None => add_manifest cluster "MonitoringNamespacePrometheus"
                (k8s_object "Namespace" "monitoring" None)
    | Some ns => ret ns
    end ;;
  prometheus_adapter_sa <- add_service_account cluster "prometheus-adapter-sa"
      "prometheus-adapter" "monitoring" ;;
  prometheus_adapter_role <- add_manifest cluster "PrometheusAdapterRole"
      (k8s_object "ClusterRole" "prometheus-adapter" None) ;;
  prometheus_adapter_binding <- add_manifest cluster "PrometheusAdapterBinding"
      (k8s_cluster_role_binding "prometheus-adapter" "prometheus-adapter") ;;
  prometheus_adapter_config <- add_manifest cluster "PrometheusAdapterConfig"
      (k8s_object "ConfigMap" "adapter-config" (Some "monitoring")) ;;
  prometheus_adapter_deployment <-
    add_manifest cluster "PrometheusAdapterDeployment"
      (k8s_deployment "prometheus-adapter" "monitoring"
         [("serviceAccountName", VStr "prometheus-adapter");
          ("tolerations", VList (_get_tolerations compute_mode))]) ;;
  prometheus_adapter_service <- add_manifest cluster "PrometheusAdapterService"
      (k8s_object "Service" "prometheus-adapter" (Some "monitoring")) ;;
  prometheus_adapter_apiservice <-
    add_manifest cluster "PrometheusAdapterAPIService"
      (k8s_object "APIService" "v1beta1.custom.metrics.k8s.io" None) ;;
  add_dependency prometheus_adapter_deployment prometheus_adapter_config ;;
  add_dependency prometheus_adapter_deployment prometheus_adapter_sa ;;
  add_dependency prometheus_adapter_service prometheus_adapter_deployment ;;
  add_dependency prometheus_adapter_apiservice prometheus_adapter_service ;;
  ret {| self := self; monitoring_namespace := monitoring_namespace;
         prometheus_adapter_deployment := prometheus_adapter_deployment;
         prometheus_adapter_apiservice := prometheus_adapter_apiservice |}.

End PrometheusAdapterConstruct.

(** ** applications/workloads/sample_app_construct.py *)

Module SampleAppConstruct.

Record t := mk {
  self : ref;
  compute_config : option ComputeConfig;
  sample_hpa : ref
}.

Definition _get_pod_spec (compute_config : option ComputeConfig) : dict :=
  if is_fargate compute_config then fargate_pod_spec else [].

Definition init (scope : ref) (construct_id : string) (cluster : ref)
    (compute_config : option ComputeConfig) : M t :=
  self <- new_construct (Some scope) construct_id Construct ;;
  app_deployment <- add_manifest cluster "SampleMetricsAppDeployment"
      (k8s_deployment "sample-metrics-app" "default"
                      (_get_pod_spec compute_config)) ;;
  app_service <- add_manifest cluster "SampleMetricsAppService"
      (k8s_object "Service" "sample-metrics-app" (Some "default")) ;;
  add_dependency app_service app_deployment ;;
  sample_hpa <- add_manifest cluster "SampleMetricsAppHPA"
      (k8s_hpa "sample-metrics-app-hpa" "default" "sample-metrics-app"
               "sample_app_requests_rate") ;;
  add_dependency sample_hpa app_deployment ;;
  ret {| self := self; compute_config := compute_config;
         sample_hpa := sample_hpa |}.

End SampleAppConstruct.

(** ** applications/workloads/otel_app_construct.py *)

Module OtelAppConstruct.

Record t := mk {
  self : ref;
  compute_config : option ComputeConfig;
  otel_hpa : ref
}.

Definition _get_pod_spec (compute_config : option ComputeConfig) : dict :=
  if is_fargate compute_config then fargate_pod_spec else [].

Definition init (scope : ref) (construct_id : string) (cluster : ref)
    (opentelemetry_namespace : option ref)
    (compute_config : option ComputeConfig) : M t :=
  self <- new_construct (Some scope) construct_id Construct ;;
  service_account <- add_manifest cluster "OtelCollectorSA"
      (k8s_object "ServiceAccount" "otel-collector-sa" (Some "opentelemetry")) ;;
  add_dependency_opt service_account opentelemetry_namespace ;;
  cluster_role <- add_manifest cluster "OtelCollectorRole"
      (k8s_object "ClusterRole" "otel-collector-role" None) ;;
  cluster_role_binding <- add_manifest cluster "OtelCollectorRoleBinding"
      (k8s_cluster_role_binding "otel-collector-role-binding"
                                "otel-collector-role") ;;
  add_dependency cluster_role_binding cluster_role ;;
  add_dependency cluster_role_binding service_account ;;
  collector_config <- add_manifest cluster "OtelCollectorConfig"
      (k8s_object "ConfigMap" "otel-collector-conf" (Some "opentelemetry")) ;;
  add_dependency_opt collector_config opentelemetry_namespace ;;
  collector_deployment <- add_manifest cluster "OtelCollectorDeployment"
      (k8s_deployment "otel-collector" "opentelemetry"
                      [("serviceAccountName", VStr "otel-collector-sa")]) ;;
  add_dependency collector_deployment collector_config ;;
  add_dependency collector_deployment cluster_role_binding ;;
  collector_service <- add_manifest cluster "OtelCollectorService"
      (k8s_object "Service" "otel-collector" (Some "opentelemetry")) ;;
  add_dependency collector_service collector_deployment ;;
  app_deployment <- add_manifest cluster "OtelSampleAppDeployment"
      (k8s_deployment "otel-sample-app" "default"
                      (_get_pod_spec compute_config)) ;;
  add_dependency app_deployment collector_service ;;
  app_service <- add_manifest cluster "OtelSampleAppService"
      (k8s_object "Service" "otel-sample-app" (Some "default")) ;;
  add_dependency app_service app_deployment ;;
  otel_hpa <- add_manifest cluster "OtelSampleAppHPA"
      (k8s_hpa "otel-sample-app-hpa" "default" "otel-sample-app"
               "pod_cpu_utilization") ;;
  add_dependency otel_hpa app_deployment ;;
  ret {| self := self; compute_config := compute_config;
         otel_hpa := otel_hpa |}.

End OtelAppConstruct.

(** ** applications/workloads/go_otel_app_construct.py *)

Module GoOtelAppConstruct.

Record t := mk {
  self : ref;
  compute_config : option ComputeConfig;
  go_hpa : ref
}.

Definition _get_pod_spec (compute_config : option ComputeConfig) : dict :=
  if is_fargate compute_config then fargate_pod_spec else [].

Definition init (scope : ref) (construct_id : string) (cluster : ref)
    (compute_config : option ComputeConfig) : M t :=
  self <- new_construct (Some scope) construct_id Construct ;;
  app_deployment <- add_manifest cluster "GoOtelAppDeployment"
      (k8s_deployment "go-otel-sample-app" "default"
                      (_get_pod_spec compute_config)) ;;
  app_service <- add_manifest cluster "GoOtelAppService"
      (k8s_object "Service" "go-otel-sample-app" (Some "default")) ;;
  add_dependency app_service app_deployment ;;
  go_hpa <- add_manifest cluster "GoOtelAppHPA"
      (k8s_hpa "go-otel-sample-app-hpa" "default" "go-otel-sample-app"
               "go_app_requests_rate") ;;
  add_dependency go_hpa app_deployment ;;
  ret {| self := self; compute_config := compute_config; go_hpa := go_hpa |}.

End GoOtelAppConstruct.

(** ** applications/workloads/java_otel_app_construct.py *)

Module JavaOtelAppConstruct.

Record t := mk {
  self : ref;
  compute_config : option ComputeConfig;
  java_hpa : ref
}.

Definition _get_pod_spec (compute_config : option ComputeConfig) : dict :=
  if is_fargate compute_config then fargate_pod_spec else [].

Definition init (scope : ref) (construct_id : string) (cluster : ref)
    (compute_config : option ComputeConfig) : M t :=
  self <- new_construct (Some scope) construct_id Construct ;;
  app_deployment <- add_manifest cluster "JavaOtelSampleAppDeployment"
      (k8s_deployment "java-otel-sample-app" "default"
                      (_get_pod_spec compute_config)) ;;
  app_service <- add_manifest cluster "JavaOtelSampleAppService"
      (k8s_object "Service" "java-otel-sample-app" (Some "default")) ;;
  add_dependency app_service app_deployment ;;
  java_hpa <- add_manifest cluster "JavaOtelSampleAppHPA"
      (k8s_hpa "java-otel-sample-app-hpa" "default" "java-otel-sample-app"
               "java_app_requests_rate") ;;
  add_dependency java_hpa app_deployment ;;
  ret {| self := self; compute_config := compute_config;
         java_hpa := java_hpa |}.

End JavaOtelAppConstruct.

(** ** infrastructure/compute/eks_cluster_stack.py *)

Module EksClusterStack.

Record t := mk {
  self : ref;
  cluster : ref;
  monitoring_namespace : ref;
  opentelemetry_namespace : ref;
  auto_mode_enabler : option ref;   (* [hasattr(self, 'auto_mode_enabler')] *)
  coredns_addon : ref;
  pod_identity_addon : ref;
  vpc_cni_addon : ref;
  kube_proxy_addon : ref;
  adot_role : ref
}.

(** [eks_config.compute.mode.replace('-', '').title()]. *)
Definition mode_title (eks_config : EksConfig) : string :=
  PyStr.title (PyStr.remove_char "-"%char (mode (compute eks_config))).

Definition _create_cluster_service_role (self : ref) : M ref :=
  new_construct (Some self) "EksClusterServiceRole" Role.

Definition _create_node_group_service_role (self : ref) : M ref :=
  new_construct (Some self) "EksNodeGroupServiceRole" Role.

Definition _check_and_replace_cluster_if_needed (self : ref) : M unit :=
  _ <- new_construct (Some self) "ComputeModeChanged" CfnCondition ;;
  ret tt.

Definition _create_auto_mode_cluster (self : ref) (eks_config : EksConfig)
  : M ref :=
  new_construct (Some self) ("AutoModeCluster" ++ mode_title eks_config) Cluster.

Definition _create_fargate_cluster (self : ref) (eks_config : EksConfig)
  : M ref :=
  new_construct (Some self) ("FargateCluster" ++ mode_title eks_config) Cluster.

Definition _create_namespaces (cluster : ref) (eks_config : EksConfig)
  : M (ref * ref) :=
  let mode_prefix := mode_title eks_config in
  monitoring_namespace <-
    add_manifest cluster (mode_prefix ++ "MonitoringNamespace")
      (k8s_object "Namespace" "monitoring" None) ;;
  opentelemetry_namespace <-
    add_manifest cluster (mode_prefix ++ "OpenTelemetryNamespace")
      (k8s_object "Namespace" "opentelemetry" None) ;;
  ret (monitoring_namespace, opentelemetry_namespace).

(** The profiles are added and their handles dropped: no
    [add_dependency] is called on them. *)
Definition _ensure_fargate_namespaces_ready (cluster : ref)
    (eks_config : EksConfig) : M unit :=
  for_each (fargate_profiles (compute eks_config))
    (fun ns =>
       _ <- add_fargate_profile cluster (ns ++ "-fargate-profile") ns ;;
       ret tt).

Definition _enable_auto_mode (self cluster node_group_role : ref) : M ref :=
  auto_mode_lambda_role <- new_construct (Some self) "AutoModeLambdaRole" Role ;;
  auto_mode_lambda <- new_construct (Some self) "AutoModeLambda" LambdaFunction ;;
  auto_mode_provider <- new_construct (Some self) "AutoModeProvider" Provider ;;
  auto_mode_enabler <- new_construct (Some self) "EnableAutoMode" CustomResource ;;
  add_dependency auto_mode_enabler cluster ;;
  ret auto_mode_enabler.

(** The [aws_auth] mappings edit a manifest the cluster owns and are not
    constructs of their own. *)
Definition _configure_admin_access (self : ref) (eks_config : EksConfig)
  : M unit :=
  (if PyStr.truthy (admin_user_arn eks_config)
   then _ <- new_construct (Some self) "AdminUser" ImportedUser ;; ret tt
   else ret tt) ;;
  (if PyStr.truthy (admin_role_arn eks_config)
   then _ <- new_construct (Some self) "AdminRole" ImportedRole ;; ret tt
   else ret tt).

Definition _add_cluster_creator_access (self : ref) : M unit :=
  _ <- new_construct (Some self) "ClusterCreatorAccessEntry" CfnAccessEntry ;;
  ret tt.

Definition _add_cluster_addons (self : ref) (auto_mode_enabler : option ref)
  : M (ref * ref * ref * ref) :=
  let mode_prefix :=
    match auto_mode_enabler with Some _ => "AutoMode" | None => "Fargate" end in
  coredns_addon <-
    new_construct (Some self) (mode_prefix ++ "CoreDnsAddon")
                  (CfnAddon "coredns") ;;
  pod_identity_addon <-
    new_construct (Some self) (mode_prefix ++ "PodIdentityAgentAddon")
                  (CfnAddon "eks-pod-identity-agent") ;;
  vpc_cni_addon <-
    new_construct (Some self) (mode_prefix ++ "VpcCniAddon")
                  (CfnAddon "vpc-cni") ;;
  kube_proxy_addon <-
    new_construct (Some self) (mode_prefix ++ "KubeProxyAddon")
                  (CfnAddon "kube-proxy") ;;
  match auto_mode_enabler with
  | Some enabler =>
      add_dependency coredns_addon enabler ;;
      add_dependency pod_identity_addon enabler ;;
      add_dependency vpc_cni_addon enabler ;;
      add_dependency kube_proxy_addon enabler
  | None => ret tt
  end ;;
  ret (coredns_addon, pod_identity_addon, vpc_cni_addon, kube_proxy_addon).

Definition _create_adot_role (self : ref) : M ref :=
  _ <- new_construct (Some self) "AdotConditionsJson" CfnJson ;;
  new_construct (Some self) "AdotCollectorRole" Role.

Definition _configure_logging (cluster : ref) : M unit :=
  _ <- add_manifest cluster "ClusterLogging"
         (k8s_object "ConfigMap" "aws-logging" (Some "kube-system")) ;;
  ret tt.

Definition _add_outputs (self : ref) : M unit :=
  for_each ["ClusterName"; "ClusterEndpoint"; "ClusterArn";
            "KubectlConfigCommand"; "AutoModeStatus"; "AdotRoleArn";
            "ClusterServiceRoleArn"]
    (fun name => _ <- new_construct (Some self) name CfnOutput ;; ret tt).

Definition init (scope : ref) (construct_id : string) (eks_config : EksConfig)
  : M t :=
  self <- new_construct (Some scope) construct_id Stack ;;
  cluster_role <- _create_cluster_service_role self ;;
  node_group_role <- _create_node_group_service_role self ;;
  _check_and_replace_cluster_if_needed self ;;
  cluster <-
    (if String.eqb (mode (compute eks_config)) "fargate"
     then _create_fargate_cluster self eks_config
     else _create_auto_mode_cluster self eks_config) ;;
  namespaces <- _create_namespaces cluster eks_config ;;
  (if String.eqb (mode (compute eks_config)) "fargate"
   then _ensure_fargate_namespaces_ready cluster eks_config
   else ret tt) ;;
  auto_mode_enabler <-
    (if String.eqb (mode (compute eks_config)) "auto-mode"
     then e <- _enable_auto_mode self cluster node_group_role ;; ret (Some e)
     else ret None) ;;
  _configure_admin_access self eks_config ;;
  _add_cluster_creator_access self ;;
  addons <- _add_cluster_addons self auto_mode_enabler ;;
  adot_role <- _create_adot_role self ;;
  _configure_logging cluster ;;
  _add_outputs self ;;
  ret {| self := self; cluster := cluster;
         monitoring_namespace := fst namespaces;
         opentelemetry_namespace := snd namespaces;
         auto_mode_enabler := auto_mode_enabler;
         coredns_addon := fst (fst (fst addons));
         pod_identity_addon := snd (fst (fst addons));
         vpc_cni_addon := snd (fst addons);
         kube_proxy_addon := snd addons;
         adot_role := adot_role |}.

End EksClusterStack.

(** ** app.py *)

Module Application.

Record t := mk {
  app : ref;
  vpc_stack : ref;
  kubectl_layer_stack : ref;
  observability_stack : ref;
  ecr_stack : ref;
  eks_cluster_stack : EksClusterStack.t;
  prometheus : PrometheusConstruct.t;
  prometheus_adapter : PrometheusAdapterConstruct.t;
  sample_app : SampleAppConstruct.t;
  otel_app : OtelAppConstruct.t;
  go_otel_app : GoOtelAppConstruct.t;
  java_otel_app : JavaOtelAppConstruct.t
}.

(** The network, layer, observability and registry stacks are kept as
    single nodes: their resources live in stacks of their own and no
    [node.add_dependency] call names them. *)
Definition main (config : EnvironmentConfig) : M t :=
  app <- new_construct None "" App ;;
  vpc_stack <- new_construct (Some app) "NetworkStack" Stack ;;
  kubectl_layer_stack <- new_construct (Some app) "KubectlLayerStack" Stack ;;
  observability_stack <- new_construct (Some app) "ObservabilityStack" Stack ;;
  ecr_stack <- new_construct (Some app) "EcrStack" Stack ;;
  eks_cluster_stack <- EksClusterStack.init app "EksClusterStack" (eks config) ;;
  let stack := EksClusterStack.self eks_cluster_stack in
  let cluster := EksClusterStack.cluster eks_cluster_stack in
  let compute_config := Some (compute (eks config)) in
  prometheus <- PrometheusConstruct.init stack "Prometheus" cluster
      (Some (EksClusterStack.monitoring_namespace eks_cluster_stack))
      compute_config ;;
  add_dependency (PrometheusConstruct.self prometheus) stack ;;
  add_dependency (PrometheusConstruct.self prometheus)
                 (EksClusterStack.monitoring_namespace eks_cluster_stack) ;;
  prometheus_adapter <-
    PrometheusAdapterConstruct.init stack "PrometheusAdapter" cluster None
      (mode (compute (eks config))) ;;
  add_dependency (PrometheusAdapterConstruct.self prometheus_adapter) stack ;;
  add_dependency (PrometheusAdapterConstruct.self prometheus_adapter)
                 (PrometheusConstruct.self prometheus) ;;
  add_dependency (PrometheusAdapterConstruct.self prometheus_adapter)
                 (EksClusterStack.monitoring_namespace eks_cluster_stack) ;;
  sample_app <- SampleAppConstruct.init stack "SampleMetricsApp" cluster
      compute_config ;;
  add_dependency (SampleAppConstruct.self sample_app)
                 (PrometheusAdapterConstruct.self prometheus_adapter) ;;
  otel_app <- OtelAppConstruct.init stack "OtelSampleApp" cluster
      (Some (EksClusterStack.opentelemetry_namespace eks_cluster_stack))
      compute_config ;;
  add_dependency (OtelAppConstruct.self otel_app)
                 (EksClusterStack.opentelemetry_namespace eks_cluster_stack) ;;
  add_dependency (OtelAppConstruct.self otel_app)
                 (PrometheusAdapterConstruct.self prometheus_adapter) ;;
  go_otel_app <- GoOtelAppConstruct.init stack "GoOtelSampleApp" cluster
      compute_config ;;
  add_dependency (GoOtelAppConstruct.self go_otel_app)
                 (PrometheusAdapterConstruct.self prometheus_adapter) ;;
  java_otel_app <- JavaOtelAppConstruct.init stack "JavaOtelSampleApp" cluster
      compute_config ;;
  add_dependency (JavaOtelAppConstruct.self java_otel_app)
                 (PrometheusAdapterConstruct.self prometheus_adapter) ;;
  stack_add_dependency stack vpc_stack ;;
  stack_add_dependency stack kubectl_layer_stack ;;
  stack_add_dependency stack observability_stack ;;
  ret {| app := app; vpc_stack := vpc_stack;
         kubectl_layer_stack := kubectl_layer_stack;
         observability_stack := observability_stack;
         ecr_stack := ecr_stack;
         eks_cluster_stack := eks_cluster_stack;
         prometheus := prometheus;
         prometheus_adapter := prometheus_adapter;
         sample_app := sample_app; otel_app := otel_app;
         go_otel_app := go_otel_app; java_otel_app := java_otel_app |}.

(** The whole script, from the context value to the tree handed to
    [app.synth()]. *)
Definition synth (ctx account region : option string) : error + (t * tree) :=
  main (resolve_config ctx account region) empty.

End Application.

(** ** Ordering carried by the tree

    [x.node.add_dependency(y)] is an edge between two constructs.  At
    synthesis the library turns it into ordering between resources:
    every resource in the scope of [x] is ordered after every resource in
    the scope of [y], where a construct is in the scope of itself and of
    each of its ancestors, and no resource is ordered after itself.  An
    edge whose source holds no resource in its scope therefore orders
    nothing.  Only declared edges are followed; what the provisioning
    engine infers from references between resources is not part of the
    tree. *)

Module Order.

Definition node (g : tree) (r : ref) : option construct :=
  nth_error (constructs g) r.

Definition size (g : tree) : nat := length (constructs g).

Definition refs (g : tree) : list ref := seq 0 (size g).

(** The chain of scopes above a construct.  A scope is created before its
    children, so the number of constructs is fuel enough. *)
Fixpoint ancestors (g : tree) (fuel : nat) (r : ref) : list ref :=
  match fuel with
  | 0 => []
  | S fuel' =>
      match node g r with
      | Some c =>
          match scope c with
          | Some p => p :: ancestors g fuel' p
          | None => []
          end
      | None => []
      end
  end.

Definition within (g : tree) (x a : ref) : bool :=
  Nat.eqb x a || existsb (Nat.eqb a) (ancestors g (size g) x).

Definition resource_at (g : tree) (r : ref) : bool :=
  match node g r with
  | Some c => is_resource (kind_of c)
  | None => false
  end.

(** [depends_on g r p]: resource [r] is ordered directly after resource
    [p]. *)
Definition depends_on (g : tree) (r p : ref) : bool :=
  resource_at g r && resource_at g p && negb (Nat.eqb r p) &&
  existsb (fun e => within g r (fst e) && within g p (snd e))
          (dependencies g).

(** [precedes g p r]: [p] is a predecessor of [r], directly or through a
    path. *)
Inductive precedes (g : tree) : ref -> ref -> Prop :=
| precedes_edge p r : depends_on g r p = true -> precedes g p r
| precedes_path p q r : precedes g p q -> precedes g q r -> precedes g p r.

(** The resources in the scope of a construct. *)
Definition resources_within (g : tree) (a : ref) : list ref :=
  filter (fun r => resource_at g r && within g r a) (refs g).

(** All direct edges between resources, computed once: each declared
    edge contributes the pairs of a resource in the scope of its source
    and a different resource in the scope of its target. *)
Definition resolved (g : tree) : list (ref * ref) :=
  flat_map (fun e =>
              filter (fun rp => negb (Nat.eqb (fst rp) (snd rp)))
                     (list_prod (resources_within g (fst e))
                                (resources_within g (snd e))))
           (dependencies g).

Definition direct_in (E : list (ref * ref)) (r : ref) : list ref :=
  map snd (filter (fun e => Nat.eqb (fst e) r) E).

Fixpoint reach (E : list (ref * ref)) (fuel : nat) (r : ref) : list ref :=
  match fuel with
  | 0 => []
  | S fuel' =>
      let d := direct_in E r in
      d ++ flat_map (reach E fuel') d
  end.

(** For every construct, in creation order, the list of its
    predecessors. *)
Definition predecessor_table (g : tree) : list (list ref) :=
  let E := resolved g in
  map (reach E (size g)) (refs g).

Definition mem (x : ref) (l : list ref) : bool := existsb (Nat.eqb x) l.

Definition lookup (T : list (list ref)) (r : ref) : list ref := nth r T [].

Definition precedesb (g : tree) (p r : ref) : bool :=
  mem p (lookup (predecessor_table g) r).

(** The table is closed when, along every direct edge, the predecessor
    and all of its own predecessors are listed for the successor. *)
Definition closed_table (E : list (ref * ref)) (T : list (list ref)) : bool :=
  forallb (fun e =>
             mem (snd e) (lookup T (fst e)) &&
             forallb (fun p => mem p (lookup T (fst e))) (lookup T (snd e)))
          E.

Definition closed (g : tree) : bool :=
  closed_table (resolved g) (predecessor_table g).

(** Lookups by what a node is. *)
Definition manifest_at (g : tree) (r : ref) : option manifest :=
  match node g r with
  | Some c => match kind_of c with
              | KubernetesManifest m => Some m
              | _ => None
              end
  | None => None
  end.

Definition is_kind (g : tree) (k : string) (r : ref) : bool :=
  match manifest_at g r with
  | Some m => String.eqb (m_kind m) k
  | None => false
  end.

Definition named (g : tree) (k name : string) (r : ref) : bool :=
  match manifest_at g r with
  | Some m => String.eqb (m_kind m) k && String.eqb (m_name m) name
  | None => false
  end.

End Order.

(** ** The two trees the application can build *)

Definition built (r : error + (Application.t * tree)) : tree :=
  match r with
  | inr (_, g) => g
  | inl _ => empty
  end.

(** The handles a failed build would leave behind: none. *)
Definition no_handles : Application.t :=
  {| Application.app := 0; Application.vpc_stack := 0;
     Application.kubectl_layer_stack := 0;
     Application.observability_stack := 0; Application.ecr_stack := 0;
     Application.eks_cluster_stack :=
       EksClusterStack.mk 0 0 0 0 None 0 0 0 0 0;
     Application.prometheus := PrometheusConstruct.mk 0 0 None 0 0 0;
     Application.prometheus_adapter := PrometheusAdapterConstruct.mk 0 0 0 0;
     Application.sample_app := SampleAppConstruct.mk 0 None 0;
     Application.otel_app := OtelAppConstruct.mk 0 None 0;
     Application.go_otel_app := GoOtelAppConstruct.mk 0 None 0;
     Application.java_otel_app := JavaOtelAppConstruct.mk 0 None 0 |}.

Definition handles (r : error + (Application.t * tree)) : Application.t :=
  match r with
  | inr (a, _) => a
  | inl _ => no_handles
  end.

Definition auto_mode_app : Application.t :=
  Eval vm_compute in handles (Application.synth None None None).

Definition fargate_app : Application.t :=
  Eval vm_compute in handles (Application.synth (Some "fargate") None None).

Definition auto_mode_tree : tree :=
  Eval vm_compute in built (Application.synth None None None).

Definition fargate_tree : tree :=
  Eval vm_compute in built (Application.synth (Some "fargate") None None).

(** The overlays that depend on the compute mode, gathered from the
    methods that compute them. *)
Record Overlay := mkOverlay {
  pod_spec : dict;                 (* [_get_pod_spec] *)
  adapter_tolerations : list value;  (* [_get_tolerations] *)
  adapter_config : string          (* [_get_adapter_config] *)
}.

Definition branch (c : ComputeConfig) : Overlay :=
  {| pod_spec := SampleAppConstruct._get_pod_spec (Some c);
     adapter_tolerations := PrometheusAdapterConstruct._get_tolerations (mode c);
     adapter_config := PrometheusAdapterConstruct._get_adapter_config (mode c) |}.

(** Placement hints of a pod template. *)
Definition has_key (k : string) (d : dict) : bool :=
  match dict_get k d with Some _ => true | None => false end.

(** Checks over all constructs of a tree, used to decide the ordering
    statements by evaluation. *)
Module Check.
Import Order.

Definition all (g : tree) (P : ref -> bool) : bool := forallb P (refs g).

Definition select (g : tree) (P : ref -> bool) : list ref := filter P (refs g).

Definition is_hpa (g : tree) : ref -> bool := is_kind g "HorizontalPodAutoscaler".

Definition role_ref_is (g : tree) (b r : ref) : bool :=
  match manifest_at g b, manifest_at g r with
  | Some mb, Some mr =>
      String.eqb (m_kind mb) "ClusterRoleBinding" &&
      String.eqb (m_kind mr) "ClusterRole" &&
      match m_role_ref mb with
      | Some n => String.eqb n (m_name mr)
      | None => false
      end
  | _, _ => false
  end.

(** [d], [s], [h] are the Deployment, the Service and the autoscaler of
    one workload: the autoscaler targets the Deployment by name and the
    Service carries the Deployment's name and namespace. *)
Definition workload (g : tree) (d s h : ref) : bool :=
  match manifest_at g d, manifest_at g s, manifest_at g h with
  | Some md, Some ms, Some mh =>
      String.eqb (m_kind md) "Deployment" &&
      String.eqb (m_kind ms) "Service" &&
      String.eqb (m_kind mh) "HorizontalPodAutoscaler" &&
      match m_scale_target mh with
      | Some n => String.eqb n (m_name md)
      | None => false
      end &&
      String.eqb (m_name ms) (m_name md) &&
      match m_namespace md, m_namespace ms, m_namespace mh with
      | Some a, Some b, Some c => String.eqb a b && String.eqb a c
      | _, _, _ => false
      end
  | _, _, _ => false
  end.

Definition workloads (g : tree) : list (ref * ref * ref) :=
  flat_map (fun h =>
    flat_map (fun d =>
      flat_map (fun s => if workload g d s h then [(d, s, h)] else [])
               (select g (is_kind g "Service")))
      (select g (is_kind g "Deployment")))
    (select g (is_hpa g)).

(** The pairs of a ClusterRoleBinding and the ClusterRole it names. *)
Definition role_bindings (g : tree) : list (ref * ref) :=
  flat_map (fun b =>
    flat_map (fun r => if role_ref_is g b r then [(b, r)] else [])
             (select g (is_kind g "ClusterRole")))
    (select g (is_kind g "ClusterRoleBinding")).

(** Deployments whose pod template is built with [_get_pod_spec]. *)
Definition overlay_pods : list string :=
  ["prometheus-server"; "sample-metrics-app"; "otel-sample-app";
   "go-otel-sample-app"; "java-otel-sample-app"].

Definition is_addon (g : tree) (r : ref) : bool :=
  match node g r with
  | Some c => match kind_of c with CfnAddon _ => true | _ => false end
  | None => false
  end.

Definition addon_name_at (g : tree) (r : ref) : option string :=
  match node g r with
  | Some c => match kind_of c with CfnAddon n => Some n | _ => None end
  | None => None
  end.

Definition is_manifest (g : tree) (r : ref) : bool :=
  match manifest_at g r with Some _ => true | None => false end.

Definition profile_namespace (g : tree) (r : ref) : option string :=
  match node g r with
  | Some c => match kind_of c with FargateProfile n => Some n | _ => None end
  | None => None
  end.

Definition is_profile (g : tree) (r : ref) : bool :=
  match profile_namespace g r with Some _ => true | None => false end.

Definition pod_spec_at (g : tree) (r : ref) : option dict :=
  match manifest_at g r with
  | Some m => m_pod_spec m
  | None => None
  end.

Definition pod_name_at (g : tree) (r : ref) : string :=
  match manifest_at g r with
  | Some m => m_name m
  | None => ""
  end.

Definition has_pod_spec (g : tree) (r : ref) : bool :=
  match pod_spec_at g r with Some _ => true | None => false end.

Definition one_of (x : string) (l : list string) : bool :=
  existsb (String.eqb x) l.

(** The placement hints a pod template is expected to carry: both hints
    in Fargate mode for the pods built with [_get_pod_spec], and a
    toleration in either mode for the adapter pod. *)
Definition expected_node_selector (fargate : bool) (name : string) : bool :=
  fargate && one_of name overlay_pods.

Definition expected_tolerations (fargate : bool) (name : string) : bool :=
  (fargate && one_of name overlay_pods) || String.eqb name "prometheus-adapter".

Definition hints_as_expected (g : tree) (fargate : bool) (d : ref) : bool :=
  match pod_spec_at g d with
  | Some spec =>
      Bool.eqb (has_key "nodeSelector" spec)
               (expected_node_selector fargate (pod_name_at g d))
      && Bool.eqb (has_key "tolerations" spec)
                  (expected_tolerations fargate (pod_name_at g d))
  | None => true
  end.

End Check.

(** * Further parts of the application *)

(** ** What the manifests of a tree refer to *)

Module Wiring.
Import Order.

(** The namespace an object lives in: that of a namespaced manifest or of
    a service account added with [add_service_account]. *)
Definition namespace_of (g : tree) (r : ref) : option string :=
  match node g r with
  | Some c =>
      match kind_of c with
      | KubernetesManifest m => m_namespace m
      | ServiceAccount _ ns => Some ns
      | _ => None
      end
  | None => None
  end.

(** [sa] is a service account called [n] in namespace [ns], declared
    either with [add_service_account] or as a ServiceAccount manifest. *)
Definition is_service_account (g : tree) (n ns : string) (sa : ref) : bool :=
  match node g sa with
  | Some c =>
      match kind_of c with
      | ServiceAccount n' ns' => String.eqb n n' && String.eqb ns ns'
      | KubernetesManifest m =>
          String.eqb (m_kind m) "ServiceAccount" && String.eqb (m_name m) n &&
          match m_namespace m with
          | Some ns' => String.eqb ns ns'
          | None => false
          end
      | _ => false
      end
  | None => false
  end.

(** The [serviceAccountName] of a Deployment's pod template, with the
    Deployment's namespace. *)
Definition service_account_of (g : tree) (d : ref) : option (string * string) :=
  match manifest_at g d with
  | Some m =>
      match m_pod_spec m, m_namespace m with
      | Some spec, Some ns =>
          match dict_get "serviceAccountName" spec with
          | Some (VStr n) => Some (n, ns)
          | _ => None
          end
      | _, _ => None
      end
  | None => None
  end.

(** Some Namespace manifest called [ns] is a predecessor of [r]. *)
Definition namespace_first (g : tree) (T : list (list ref)) (ns : string)
    (r : ref) : bool :=
  existsb (fun n => named g "Namespace" ns n && mem n (lookup T r)) (refs g).

(** The namespaces the tree declares a Namespace manifest for. *)
Definition declared_namespaces (g : tree) : list string :=
  map (Check.pod_name_at g) (Check.select g (is_kind g "Namespace")).

(** The objects that [PrometheusAdapterConstruct] places in the
    monitoring namespace. *)
Definition adapter_objects : list string :=
  ["prometheus-adapter-sa"; "manifest-PrometheusAdapterConfig";
   "manifest-PrometheusAdapterDeployment"; "manifest-PrometheusAdapterService"].

Definition id_at (g : tree) (r : ref) : string :=
  match node g r with
  | Some c => id c
  | None => ""
  end.

(** The Deployments an autoscaler can target: same name, same namespace. *)
Definition targets_of (g : tree) (h : ref) : list ref :=
  match manifest_at g h with
  | Some mh =>
      filter (fun d =>
                match manifest_at g d with
                | Some md =>
                    String.eqb (m_kind md) "Deployment" &&
                    match m_scale_target mh, m_namespace mh, m_namespace md with
                    | Some n, Some a, Some b =>
                        String.eqb n (m_name md) && String.eqb a b
                    | _, _, _ => false
                    end
                | None => false
                end)
             (refs g)
  | None => []
  end.

(** The line by which a rule document names the metric it serves. *)
Definition served_as (metric : string) : string :=
  ("    as: " ++ PrometheusAdapterConstruct.q metric)%string.

Definition config_lines (compute_mode : string) : list string :=
  if String.eqb compute_mode "fargate"
  then PrometheusAdapterConstruct.fargate_config_lines
  else PrometheusAdapterConstruct.auto_mode_config_lines.

End Wiring.

(** ** applications/deployments/deployment_construct.py *)

Module DeploymentConstruct.

Record t := mk {
  self : ref;
  cluster : ref;
  manifests : list ref
}.

Definition init (scope : ref) (construct_id : string) (cluster : ref) : M t :=
  self <- new_construct (Some scope) construct_id Construct ;;
  ret {| self := self; cluster := cluster; manifests := [] |}.

(** [name.replace('-', '')]. *)
Definition undashed (name : string) : string :=
  PyStr.remove_char "-"%char name.

(** [if dependencies: for dependency in dependencies: ...]: [None] and
    the empty list are both falsy. *)
Definition add_dependencies (x : ref) (dependencies : option (list ref))
  : M unit :=
  match dependencies with
  | Some (d :: ds) => for_each (d :: ds) (fun dependency => add_dependency x dependency)
  | Some [] => ret tt
  | None => ret tt
  end.

(** [self.manifests.append(manifest)]. *)
Definition appended (c : t) (manifest : ref) : t :=
  {| self := self c; cluster := cluster c;
     manifests := manifests c ++ [manifest] |}.

(** The [labels] of [add_namespace] are payload of the manifest and take
    no part in its identifier. *)
Definition add_namespace (c : t) (name : string) : M (ref * t) :=
  manifest <- add_manifest (cluster c) (undashed name ++ "Namespace")
                (k8s_object "Namespace" name None) ;;
  ret (manifest, appended c manifest).

Definition add_deployment (c : t) (name : string) (manifest : manifest)
    (dependencies : option (list ref)) : M (ref * t) :=
  deployment <- add_manifest (cluster c) (undashed name ++ "Deployment")
                  manifest ;;
  add_dependencies deployment dependencies ;;
  ret (deployment, appended c deployment).

Definition add_service (c : t) (name : string) (manifest : manifest)
    (dependencies : option (list ref)) : M (ref * t) :=
  service <- add_manifest (cluster c) (undashed name ++ "Service") manifest ;;
  add_dependencies service dependencies ;;
  ret (service, appended c service).

Definition add_config_map (c : t) (name namespace : string)
    (dependencies : option (list ref)) : M (ref * t) :=
  config_map <- add_manifest (cluster c) (undashed name ++ "ConfigMap")
                  (k8s_object "ConfigMap" name (Some namespace)) ;;
  add_dependencies config_map dependencies ;;
  ret (config_map, appended c config_map).

(** The name of the first Pods metric of a [metrics] list. *)
Fixpoint pods_metric_of (metrics : list value) : option string :=
  match metrics with
  | [] => None
  | VDict d :: rest =>
      match dict_get "type" d, dict_get "pods" d with
      | Some (VStr "Pods"), Some (VDict pods) =>
          match dict_get "metric" pods with
          | Some (VDict metric) =>
              match dict_get "name" metric with
              | Some (VStr n) => Some n
              | _ => pods_metric_of rest
              end
          | _ => pods_metric_of rest
          end
      | _, _ => pods_metric_of rest
      end
  | _ :: rest => pods_metric_of rest
  end.

(** Without [metrics] the autoscaler scales on the cpu Resource metric,
    which is no Pods metric. *)
Definition add_horizontal_pod_autoscaler (c : t)
    (name namespace target_name : string) (metrics : option (list value))
    (dependencies : option (list ref)) : M (ref * t) :=
  hpa <- add_manifest (cluster c) (undashed name ++ "HPA")
           {| m_kind := "HorizontalPodAutoscaler"; m_name := name;
              m_namespace := Some namespace; m_role_ref := None;
              m_scale_target := Some target_name;
              m_pods_metric := match metrics with
                               | Some l => pods_metric_of l
                               | None => None
                               end;
              m_pod_spec := None |} ;;
  add_dependencies hpa dependencies ;;
  ret (hpa, appended c hpa).

End DeploymentConstruct.

(** ** Growth of a tree *)

(** The tree grows by the constructs [cs] and the edges [ds]. *)
Definition grows (t t' : tree) (cs : list construct) (ds : list (ref * ref))
  : Prop :=
  constructs t' = (constructs t ++ cs)%list
  /\ dependencies t' = (dependencies t ++ ds)%list
  /\ stack_dependencies t' = stack_dependencies t.

(** The scope [sc] already has a child called [name]. *)
Definition taken (t : tree) (sc : option ref) (name : string) : bool :=
  existsb (fun c => same_scope (scope c) sc && String.eqb (id c) name)
          (constructs t).

(** The construct that [add_fargate_profile] creates for a namespace. *)
Definition profile_id (ns : string) : string :=
  "fargate-profile-" ++ (ns ++ "-fargate-profile").

Definition profile_construct (cluster : ref) (ns : string) : construct :=
  mkConstruct (profile_id ns) (Some cluster) (FargateProfile ns).


(** Sample inputs for the reusable constructs: a tree that holds an app,
    a stack and a cluster, and a deployment construct on that cluster. *)
Definition small_tree : tree :=
  {| constructs := [mkConstruct "" None App;
                    mkConstruct "Stack" (Some 0) Stack;
                    mkConstruct "Cluster" (Some 1) Cluster];
     dependencies := [];
     stack_dependencies := [] |}.

Definition small_construct : DeploymentConstruct.t :=
  {| DeploymentConstruct.self := 1; DeploymentConstruct.cluster := 2;
     DeploymentConstruct.manifests := [] |}.

Definition web_deployment : manifest := k8s_deployment "web" "default" [].

Definition web_service : manifest := k8s_object "Service" "web" (Some "default").










(** The small tree once a Prometheus construct has been built on it
    without a monitoring namespace. *)
Definition prometheus_tree : tree :=
  Eval vm_compute in
    match PrometheusConstruct.init 1 "Prometheus" 2 None None small_tree with
    | inr (_, t) => t
    | inl _ => empty
    end.

(** ** infrastructure/storage/ecr_stack.py *)

Module EcrRepositoriesStack.

(** The children of the stack: a repository per name and an output with
    its URI. *)
Inductive child : Type :=
| Repository (repository_name : string)
| RepositoryUri (of_repository : string).

Inductive failure : Type :=
| DuplicateChild (name : string).

Record t := mk {
  children : list (string * child);        (* by construct id, as created *)
  repositories : list (string * string)    (* [self.repositories]: repository
                                              name to the id of its construct *)
}.

(** [repo_name.replace('-', '')]. *)
Definition undashed (name : string) : string :=
  PyStr.remove_char "-"%char name.

Definition has_child (name : string) (s : t) : bool :=
  existsb (fun c => String.eqb (fst c) name) (children s).

Definition add_child (name : string) (c : child) (s : t) : failure + t :=
  if has_child name s then inl (DuplicateChild name)
  else inr {| children := children s ++ [(name, c)];
              repositories := repositories s |}.

(** [d[k] = v]. *)
Fixpoint dict_set (k v : string) (d : list (string * string))
  : list (string * string) :=
  match d with
  | [] => [(k, v)]
  | (k', v') :: d' =>
      if String.eqb k k' then (k, v) :: d' else (k', v') :: dict_set k v d'
  end.


(** One turn of the loop. *)
Definition add_repository (repo_name : string) (s : t) : failure + t :=
  match add_child (undashed repo_name ++ "Repo") (Repository repo_name) s with
  | inl e => inl e
  | inr s1 =>
      let s2 := {| children := children s1;
                   repositories := dict_set repo_name
                                     (undashed repo_name ++ "Repo")
                                     (repositories s1) |} in
      add_child (undashed repo_name ++ "RepoUri") (RepositoryUri repo_name) s2
  end.

Fixpoint add_repositories (repository_names : list string) (s : t)
  : failure + t :=
  match repository_names with
  | [] => inr s
  | repo_name :: rest =>
      match add_repository repo_name s with
      | inl e => inl e
      | inr s' => add_repositories rest s'
      end
  end.

Definition init (repository_names : list string) : failure + t :=
  add_repositories repository_names {| children := []; repositories := [] |}.




End EcrRepositoriesStack.

(** ** nag_suppressions.py *)

Module NagSuppressions.

(** [s.endswith(suffix)]. *)
Definition endswith (s suffix : string) : bool :=
  let n := String.length s in
  let m := String.length suffix in
  (m <=? n)%nat && String.eqb (substring (n - m) m s) suffix.

Record rule := mkRule {
  rule_id : string;
  reason : string
}.

(** The calls made on [NagSuppressions], with the position of the target
    stack in the list handed to [add_nag_suppressions]. *)
Inductive call : Type :=
| add_resource_suppressions (stack : nat) (rules : list rule)
    (apply_to_children : bool)
| add_resource_suppressions_by_path (stack : nat) (paths : list string)
    (rules : list rule)
| add_stack_suppressions (stack : nat) (rules : list rule).

(** [next((stack for stack in stacks if stack.stack_name.endswith(suffix)),
    None)], over the stack names, counting positions from [from]. *)
Fixpoint first_stack (suffix : string) (stacks : list string) (from : nat)
  : option nat :=
  match stacks with
  | [] => None
  | stack_name :: rest =>
      if endswith stack_name suffix then Some from
      else first_stack suffix rest (S from)
  end.

Definition vpc_rules : list rule :=
  [mkRule "HIPAA.Security-VPCFlowLogsEnabled"
     "VPC Flow Logs are enabled in production but disabled in development for cost reasons";
   mkRule "HIPAA.Security-VPCSubnetAutoAssignPublicIpDisabled"
     "Public subnets require auto-assign public IP for NAT Gateway functionality";
   mkRule "HIPAA.Security-VPCNoUnrestrictedRouteToIGW"
     "Public subnets require route to IGW for NAT Gateway functionality"].

Definition log_group_paths : list string :=
  ["/ObservabilityStack/ApplicationLogGroup/Resource";
   "/ObservabilityStack/OtelAppLogGroup/Resource"].

Definition log_group_rules : list rule :=
  [mkRule "HIPAA.Security-CloudWatchLogGroupEncrypted"
     "Log group encryption is not required for non-sensitive data in development environment"].

Definition eks_rules : list rule :=
  [mkRule "AwsSolutions-EKS1"
     "Public endpoint is required for development environment";
   mkRule "AwsSolutions-EKS2"
     "Control plane logging is enabled in production but disabled in development for cost reasons"].

Definition iam_rules : list rule :=
  [mkRule "AwsSolutions-IAM4"
     "AWS managed policies are required for EKS functionality";
   mkRule "AwsSolutions-IAM5"
     "Wildcard permissions are required for EKS functionality";
   mkRule "HIPAA.Security-IAMNoInlinePolicy"
     "Inline policies are required for EKS functionality"].

Definition lambda_rules : list rule :=
  [mkRule "HIPAA.Security-LambdaConcurrency"
     "Lambda concurrency limits are not required for CDK-generated Lambda functions";
   mkRule "HIPAA.Security-LambdaDLQ"
     "Dead letter queues are not required for CDK-generated Lambda functions";
   mkRule "HIPAA.Security-LambdaInsideVPC"
     "VPC configuration is not required for CDK-generated Lambda functions";
   mkRule "AwsSolutions-L1" "Lambda runtime is managed by CDK"].

Definition step_functions_rules : list rule :=
  [mkRule "AwsSolutions-SF1" "Step Functions logging is managed by CDK";
   mkRule "AwsSolutions-SF2"
     "X-Ray tracing is not required for CDK-generated Step Functions"].

Definition add_nag_suppressions (stacks : list string) : list call :=
  (match first_stack "NetworkStack" stacks 0 with
   | Some vpc_stack => [add_resource_suppressions vpc_stack vpc_rules true]
   | None => []
   end)
  ++ (match first_stack "ObservabilityStack" stacks 0 with
      | Some observability_stack =>
          [add_resource_suppressions_by_path observability_stack
             log_group_paths log_group_rules]
      | None => []
      end)
  ++ (match first_stack "EksClusterStack" stacks 0 with
      | Some eks_stack =>
          [add_stack_suppressions eks_stack eks_rules;
           add_stack_suppressions eks_stack iam_rules;
           add_stack_suppressions eks_stack lambda_rules;
           add_stack_suppressions eks_stack step_functions_rules]
      | None => []
      end).

Definition target (c : call) : nat :=
  match c with
  | add_resource_suppressions s _ _ => s
  | add_resource_suppressions_by_path s _ _ => s
  | add_stack_suppressions s _ => s
  end.

(** The name ending a call looks for. *)
Definition suffix_of (c : call) : string :=
  match c with
  | add_resource_suppressions _ _ _ => "NetworkStack"
  | add_resource_suppressions_by_path _ _ _ => "ObservabilityStack"
  | add_stack_suppressions _ _ => "EksClusterStack"
  end.

(** The stacks that [app.py] hands over, by name. *)
Definition app_stacks : list string :=
  ["NetworkStack"; "ObservabilityStack"; "EksClusterStack"].

End NagSuppressions.

(** ** applications/workloads/container_app_construct.py *)

From Stdlib Require Import ZArith DecimalString.

Module ContainerAppConstruct.

(** The manifests of this construct carry integers beside strings. *)
Inductive json : Type :=
| JStr (s : string)
| JInt (n : Z)
| JList (items : list json)
| JDict (entries : list (string * json)).

(** What the two methods read from [self]: [self.node.id] and
    [self.repository_uri]. *)
Record t := mk {
  node_id : string;
  repository_uri : string
}.

Definition is_upper (c : ascii) : bool :=
  let n := nat_of_ascii c in ((65 <=? n) && (n <=? 90))%nat.

Definition to_lower (c : ascii) : ascii :=
  if is_upper c then ascii_of_nat (nat_of_ascii c + 32) else c.

(** [s.lower()], on ASCII text. *)
Fixpoint lower (s : string) : string :=
  match s with
  | EmptyString => EmptyString
  | String c rest => String (to_lower c) (lower rest)
  end.

(** [str(n)] for an [int]. *)
Definition str (n : Z) : string := NilZero.string_of_int (Z.to_int n).

(** A [Dict[str, str]] as the dictionary it is in a manifest. *)
Definition str_dict (d : list (string * string)) : json :=
  JDict (map (fun kv => (fst kv, JStr (snd kv))) d).

Definition default_resources : json :=
  JDict [("requests", str_dict [("cpu", "100m"); ("memory", "128Mi")]);
         ("limits", str_dict [("cpu", "200m"); ("memory", "256Mi")])].

Definition default_annotations (container_port : Z) : list (string * string) :=
  [("prometheus.io/scrape", "true");
   ("prometheus.io/port", str container_port)].

Definition default_labels (self : t) : list (string * string) :=
  [("app", lower (node_id self))].

Definition if_none {A : Type} (x : option A) (d : A) : A :=
  match x with
  | None => d
  | Some v => v
  end.

Definition create_deployment_manifest (self : t) (namespace : string)
    (replicas container_port : Z) (resources : option json)
    (env_vars : option (list json))
    (annotations labels : option (list (string * string))) : json :=
  let resources := if_none resources default_resources in
  let env_vars := if_none env_vars [] in
  let annotations := if_none annotations (default_annotations container_port) in
  let labels := if_none labels (default_labels self) in
  JDict
    [("apiVersion", JStr "apps/v1");
     ("kind", JStr "Deployment");
     ("metadata",
       JDict [("name", JStr (lower (node_id self)));
              ("namespace", JStr namespace);
              ("labels", str_dict labels)]);
     ("spec",
       JDict
         [("replicas", JInt replicas);
          ("selector",
            JDict [("matchLabels",
                     JDict [("app", JStr (lower (node_id self)))])]);
          ("template",
            JDict
              [("metadata",
                 JDict [("labels", str_dict labels);
                        ("annotations", str_dict annotations)]);
               ("spec",
                 JDict
                   [("containers",
                      JList
                        [JDict
                           [("name", JStr (lower (node_id self)));
                            ("image",
                              JStr (repository_uri self ++ ":latest")%string);
                            ("ports",
                              JList [JDict [("containerPort",
                                              JInt container_port)]]);
                            ("env", JList env_vars);
                            ("resources", resources)]])])])])].

Definition create_service_manifest (self : t) (namespace : string)
    (port target_port : Z) (service_type : string) : json :=
  JDict
    [("apiVersion", JStr "v1");
     ("kind", JStr "Service");
     ("metadata",
       JDict [("name", JStr (lower (node_id self)));
              ("namespace", JStr namespace);
              ("labels", JDict [("app", JStr (lower (node_id self)))])]);
     ("spec",
       JDict
         [("type", JStr service_type);
          ("ports",
            JList [JDict [("port", JInt port);
                          ("targetPort", JInt target_port);
                          ("protocol", JStr "TCP")]]);
          ("selector", JDict [("app", JStr (lower (node_id self)))])])].

(** Reading a manifest: [d[k]] and [d[k1][k2]...]. *)
Fixpoint lookup (k : string) (d : list (string * json)) : option json :=
  match d with
  | [] => None
  | (k', v) :: rest => if String.eqb k k' then Some v else lookup k rest
  end.

Definition get (k : string) (v : json) : option json :=
  match v with
  | JDict d => lookup k d
  | _ => None
  end.

Fixpoint path (ks : list string) (v : json) : option json :=
  match ks with
  | [] => Some v
  | k :: rest =>
      match get k v with
      | Some w => path rest w
      | None => None
      end
  end.

Fixpoint str_lookup (k : string) (d : list (string * string))
  : option string :=
  match d with
  | [] => None
  | (k', v) :: rest => if String.eqb k k' then Some v else str_lookup k rest
  end.

(** A label selector selects the objects that carry each of its labels. *)
Definition selects (selector labels : json) : bool :=
  match selector, labels with
  | JDict wanted, JDict carried =>
      forallb
        (fun kv =>
           match snd kv, lookup (fst kv) carried with
           | JStr a, Some (JStr b) => String.eqb a b
           | _, _ => false
           end)
        wanted
  | _, _ => false
  end.

(** Whether the selector of a Deployment selects the pods of its own
    template. *)
Definition selects_own_pods (deployment : json) : bool :=
  match path ["spec"; "selector"; "matchLabels"] deployment,
        path ["spec"; "template"; "metadata"; "labels"] deployment with
  | Some selector, Some labels => selects selector labels
  | _, _ => false
  end.

(** Whether a Service selects the pods of a Deployment. *)
Definition service_selects (service deployment : json) : bool :=
  match path ["spec"; "selector"] service,
        path ["spec"; "template"; "metadata"; "labels"] deployment with
  | Some selector, Some labels => selects selector labels
  | _, _ => false
  end.

Definition web_app : t := mk "WebApp" "registry.example/web-app".

End ContainerAppConstruct.

(** ** platform/monitoring/observability_stack.py *)

Module ObservabilityStack.

(** The members of [logs.RetentionDays] that the stack uses. *)
Inductive RetentionDays : Type :=
| ONE_DAY | THREE_DAYS | FIVE_DAYS | ONE_WEEK | TWO_WEEKS | ONE_MONTH
| TWO_MONTHS | THREE_MONTHS | FOUR_MONTHS | FIVE_MONTHS | SIX_MONTHS
| ONE_YEAR | THIRTEEN_MONTHS | EIGHTEEN_MONTHS | TWO_YEARS | FIVE_YEARS
| TEN_YEARS | INFINITE.

Definition _get_retention_days (days : Z) : RetentionDays :=
  if (days <=? 1)%Z then ONE_DAY
  else if (days <=? 3)%Z then THREE_DAYS
  else if (days <=? 5)%Z then FIVE_DAYS
  else if (days <=? 7)%Z then ONE_WEEK
  else if (days <=? 14)%Z then TWO_WEEKS
  else if (days <=? 30)%Z then ONE_MONTH
  else if (days <=? 60)%Z then TWO_MONTHS
  else if (days <=? 90)%Z then THREE_MONTHS
  else if (days <=? 120)%Z then FOUR_MONTHS
  else if (days <=? 150)%Z then FIVE_MONTHS
  else if (days <=? 180)%Z then SIX_MONTHS
  else if (days <=? 365)%Z then ONE_YEAR
  else if (days <=? 400)%Z then THIRTEEN_MONTHS
  else if (days <=? 545)%Z then EIGHTEEN_MONTHS
  else if (days <=? 731)%Z then TWO_YEARS
  else if (days <=? 1827)%Z then FIVE_YEARS
  else if (days <=? 3653)%Z then TEN_YEARS
  else INFINITE.

(** The retention handed to both log groups:
    [self._get_retention_days(monitoring_config.retention_days)]. *)
Definition log_group_retention (monitoring_config : MonitoringConfig)
  : RetentionDays :=
  _get_retention_days (Z.of_nat (retention_days monitoring_config)).

(** The number of days a retention period lasts; [INFINITE] never ends. *)
Definition day_count (r : RetentionDays) : option Z :=
  match r with
  | ONE_DAY => Some 1%Z
  | THREE_DAYS => Some 3%Z
  | FIVE_DAYS => Some 5%Z
  | ONE_WEEK => Some 7%Z
  | TWO_WEEKS => Some 14%Z
  | ONE_MONTH => Some 30%Z
  | TWO_MONTHS => Some 60%Z
  | THREE_MONTHS => Some 90%Z
  | FOUR_MONTHS => Some 120%Z
  | FIVE_MONTHS => Some 150%Z
  | SIX_MONTHS => Some 180%Z
  | ONE_YEAR => Some 365%Z
  | THIRTEEN_MONTHS => Some 400%Z
  | EIGHTEEN_MONTHS => Some 545%Z
  | TWO_YEARS => Some 731%Z
  | FIVE_YEARS => Some 1827%Z
  | TEN_YEARS => Some 3653%Z
  | INFINITE => None
  end.

(** Whether a period keeps logs for at least [days] days. *)
Definition keeps (r : RetentionDays) (days : Z) : bool :=
  match day_count r with
  | Some n => (days <=? n)%Z
  | None => true
  end.

(** Whether period [r] ends no later than period [r']. *)
Definition no_longer_than (r r' : RetentionDays) : bool :=
  match day_count r, day_count r' with
  | Some n, Some n' => (n <=? n')%Z
  | _, None => true
  | None, Some _ => false
  end.

End ObservabilityStack.

(** * Properties *)

(** ** Configuration resolution *)

Lemma select_config_fargate account region :
  select_config "fargate" account region = fargate_development account region.
Proof. reflexivity. Qed.

Lemma select_config_other selector account region :
  selector <> "fargate" ->
  select_config selector account region = development account region.
Proof.
  intros Hne. unfold select_config.
  destruct (String.eqb_spec selector "fargate") as [Heq | _]; [contradiction | reflexivity].
Qed.

(** The context value reaches the branch unchanged, except that an absent
    or empty value becomes ["auto-mode"], which the branch treats like any
    other non-Fargate selector. *)
Lemma resolve_config_selector selector account region :
  resolve_config (Some selector) account region
  = select_config selector account region.
Proof.
  unfold resolve_config, compute_mode_of_context, PyStr.or_default.
  destruct (String.eqb_spec selector "") as [-> | _]; reflexivity.
Qed.

Lemma resolve_config_absent account region :
  resolve_config None account region = development account region.
Proof. reflexivity. Qed.

(** C1: the selector ["fargate"] resolves to the Fargate profile, with the
    four Fargate namespaces and Auto Mode off; every other selector
    resolves to the Auto Mode profile, with mode ["auto-mode"] and Auto
    Mode on.  Resolution is a total function: no selector raises.  A
    selector read from the context reaches the branch with the same
    result. *)
Theorem C1_mode_selector_resolution (selector : string)
    (account region : option string) :
  (selector = "fargate" ->
     select_config selector account region = fargate_development account region
     /\ mode (compute (eks (select_config selector account region))) = "fargate"
     /\ fargate_profiles (compute (eks (select_config selector account region)))
        = ["default"; "monitoring"; "opentelemetry"; "kube-system"]
     /\ auto_mode_enabled (compute (eks (select_config selector account region)))
        = false)
  /\ (selector <> "fargate" ->
     select_config selector account region = development account region
     /\ mode (compute (eks (select_config selector account region))) = "auto-mode"
     /\ auto_mode_enabled (compute (eks (select_config selector account region)))
        = true)
  /\ resolve_config (Some selector) account region
     = select_config selector account region.
Proof.
  split; [| split].
  - intros ->. rewrite select_config_fargate. repeat split.
  - intros Hne. rewrite (select_config_other _ _ _ Hne). repeat split.
  - apply resolve_config_selector.
Qed.

Lemma C1_mode_selector_resolution_witness :
  fargate_profiles (compute (eks (select_config "fargate" None None)))
  = ["default"; "monitoring"; "opentelemetry"; "kube-system"]
  /\ mode (compute (eks (select_config "production" None None))) = "auto-mode".
Proof.
  split.
  - apply (proj1 (C1_mode_selector_resolution "fargate" None None)).
    reflexivity.
  - apply (proj1 (proj2 (C1_mode_selector_resolution "production" None None))).
    discriminate.
Defined.

(** ** The Auto Mode callback *)

Module AutoModeLambdaProps.
Import AutoModeLambda.

Lemma str_in_create_update s :
  str_in s ["Create"; "Update"] = true <-> s = "Create" \/ s = "Update".
Proof.
  unfold str_in. cbn [existsb].
  rewrite !orb_true_iff, !String.eqb_eq. intuition discriminate.
Qed.

Lemma create_update_not_delete s :
  str_in s ["Create"; "Update"] = true -> String.eqb s "Delete" = false.
Proof.
  rewrite str_in_create_update. intros [-> | ->]; reflexivity.
Qed.

(** What a call does when the client raises. *)
Lemma on_event_client_raises eks_client event rq e :
  client_call event = Some rq ->
  eks_client rq = inl e ->
  on_event eks_client event
  = handler (RequestType event) (ClusterName (Properties event)) e.
Proof.
  unfold client_call, on_event, try_body.
  destruct (str_in (RequestType event) ["Create"; "Update"]).
  - intros [= <-] ->. reflexivity.
  - destruct (String.eqb (RequestType event) "Delete").
    + intros [= <-] ->. reflexivity.
    + discriminate.
Qed.


End AutoModeLambdaProps.

Import AutoModeLambda AutoModeLambdaProps.

(** C2: on a Delete request whose client call fails with
    [ResourceNotFoundException] the handler returns the [NOT_FOUND]
    payload; on a Delete request failing with any other error, and on a
    Create or Update request failing with any error at all, the handler
    raises that same error. *)
Theorem C2_delete_not_found_is_success (eks_client : EksClient) (event : Event) :
  (forall message,
     RequestType event = "Delete" ->
     eks_client (disable_request (ClusterName (Properties event)))
     = inl (ClientError "ResourceNotFoundException" message) ->
     on_event eks_client event
     = Returns (Some (not_found_payload (ClusterName (Properties event)))))
  /\ (forall e,
     RequestType event = "Delete" ->
     eks_client (disable_request (ClusterName (Properties event))) = inl e ->
     is_not_found e = false ->
     on_event eks_client event = Raises e)
  /\ (forall e,
     RequestType event = "Create" \/ RequestType event = "Update" ->
     eks_client (enable_request (ClusterName (Properties event))
                                (NodeRoleArn (Properties event))) = inl e ->
     on_event eks_client event = Raises e).
Proof.
  repeat split.
  - intros message Hrt Hcall.
    rewrite (on_event_client_raises eks_client event _ _
               ltac:(unfold client_call; rewrite Hrt; reflexivity) Hcall).
    rewrite Hrt. reflexivity.
  - intros e Hrt Hcall Hnf.
    rewrite (on_event_client_raises eks_client event _ _
               ltac:(unfold client_call; rewrite Hrt; reflexivity) Hcall).
    rewrite Hrt. destruct e as [code message | cls message]; simpl in *.
    + rewrite Hnf. reflexivity.
    + reflexivity.
  - intros e Hrt Hcall.
    apply str_in_create_update in Hrt.
    rewrite (on_event_client_raises eks_client event _ _
               ltac:(unfold client_call; rewrite Hrt; reflexivity) Hcall).
    unfold handler. rewrite (create_update_not_delete _ Hrt).
    destruct e; reflexivity.
Qed.

Lemma C2_delete_not_found_is_success_witness :
  on_event client_not_found delete_event
  = Returns (Some (not_found_payload "dev-eks-automode"))
  /\ on_event client_throttled delete_event
     = Raises (ClientError "ThrottlingException" "Rate exceeded")
  /\ on_event client_not_found create_event
     = Raises (ClientError "ResourceNotFoundException" "No cluster found").
Proof.
  split; [| split].
  - apply (proj1 (C2_delete_not_found_is_success client_not_found delete_event)
             "No cluster found"); reflexivity.
  - apply (proj1 (proj2 (C2_delete_not_found_is_success client_throttled
                           delete_event))); reflexivity.
  - apply (proj2 (proj2 (C2_delete_not_found_is_success client_not_found
                           create_event))); [left |]; reflexivity.
Defined.

(** Whenever a Create, Update or Delete call returns, it returns a payload
    carrying the identifier derived from the cluster name. *)
Lemma on_event_returns_payload eks_client event v :
  In (RequestType event) request_types ->
  on_event eks_client event = Returns v ->
  exists p, v = Some p /\
            PhysicalResourceId p = physical_id (ClusterName (Properties event)).
Proof.
  intros Hin. unfold on_event, try_body.
  destruct (str_in (RequestType event) ["Create"; "Update"]) eqn:Hcu.
  - destruct (eks_client _) as [e | update_id].
    + unfold handler. rewrite (create_update_not_delete _ Hcu).
      destruct e; discriminate.
    + intros [= <-]. eexists; split; reflexivity.
  - destruct (String.eqb (RequestType event) "Delete") eqn:Hd.
    + destruct (eks_client _) as [e | update_id].
      * unfold handler. rewrite Hd.
        destruct e as [code message | cls message]; [| discriminate].
        destruct (String.eqb code "ResourceNotFoundException");
          [| discriminate].
        intros [= <-]. eexists; split; reflexivity.
      * intros [= <-]. eexists; split; reflexivity.
    + exfalso. destruct Hin as [H | [H | [H | []]]]; symmetry in H.
      * assert (Ht : str_in (RequestType event) ["Create"; "Update"] = true)
          by (apply str_in_create_update; auto).
        congruence.
      * assert (Ht : str_in (RequestType event) ["Create"; "Update"] = true)
          by (apply str_in_create_update; auto).
        congruence.
      * rewrite H in Hd. discriminate.
Qed.

(** C7: for Create, Update and Delete requests, every call that returns,
    the delete-not-found case included, returns a payload whose physical
    identifier is the cluster name followed by [-auto-mode]; two calls for
    the same cluster therefore return the same identifier, whatever the
    request types and whatever the client answered. *)
Theorem C7_stable_physical_id (client1 client2 : EksClient)
    (event1 event2 : Event) (v1 v2 : option Payload) :
  ClusterName (Properties event1) = ClusterName (Properties event2) ->
  In (RequestType event1) request_types ->
  In (RequestType event2) request_types ->
  on_event client1 event1 = Returns v1 ->
  on_event client2 event2 = Returns v2 ->
  exists p1 p2,
    v1 = Some p1 /\ v2 = Some p2 /\
    PhysicalResourceId p1 = (ClusterName (Properties event1) ++ "-auto-mode")%string /\
    PhysicalResourceId p2 = PhysicalResourceId p1.
Proof.
  intros Hname Hin1 Hin2 H1 H2.
  destruct (on_event_returns_payload _ _ _ Hin1 H1) as (p1 & -> & Hp1).
  destruct (on_event_returns_payload _ _ _ Hin2 H2) as (p2 & -> & Hp2).
  exists p1, p2. repeat split; try assumption.
  rewrite Hp1, Hp2, Hname. reflexivity.
Qed.

Lemma C7_stable_physical_id_witness :
  exists p1 p2,
    Some {| PhysicalResourceId := "dev-eks-automode-auto-mode";
            Data := {| UpdateId := Some "update-1"; Status := "INITIATED" |} |}
    = Some p1 /\
    Some (not_found_payload "dev-eks-automode") = Some p2 /\
    PhysicalResourceId p1 = "dev-eks-automode-auto-mode" /\
    PhysicalResourceId p2 = PhysicalResourceId p1.
Proof.
  apply (C7_stable_physical_id client_ok client_not_found
           create_event delete_event).
  - reflexivity.
  - simpl. auto.
  - simpl. auto.
  - reflexivity.
  - reflexivity.
Defined.

(** C10: a request type other than Create, Update and Delete makes the
    handler fall off its end: it returns [None], with no payload and no
    exception, whatever the client would have answered. *)
Theorem C10_unknown_request_type_returns_none (eks_client : EksClient)
    (event : Event) :
  ~ In (RequestType event) request_types ->
  on_event eks_client event = Returns None.
Proof.
  intros Hnot. unfold on_event, try_body.
  destruct (str_in (RequestType event) ["Create"; "Update"]) eqn:Hcu.
  - exfalso. apply Hnot. apply str_in_create_update in Hcu.
    unfold request_types. simpl. destruct Hcu; auto.
  - destruct (String.eqb_spec (RequestType event) "Delete") as [Hd | _].
    + exfalso. apply Hnot. unfold request_types. simpl. auto.
    + reflexivity.
Qed.

Lemma C10_unknown_request_type_returns_none_witness :
  on_event client_ok read_event = Returns None.
Proof.
  apply C10_unknown_request_type_returns_none.
  unfold request_types. simpl. intros [H | [H | [H | []]]]; discriminate.
Defined.

(** ** Deciding the order on a tree *)

Module OrderFacts.
Import Order.

Lemma mem_In x l : mem x l = true <-> In x l.
Proof.
  unfold mem. rewrite existsb_exists. split.
  - intros (y & Hy & Heq). apply Nat.eqb_eq in Heq. now subst.
  - intros H. exists x. split; [assumption | apply Nat.eqb_refl].
Qed.

Lemma resource_in_refs g r : resource_at g r = true -> In r (refs g).
Proof.
  unfold resource_at, node, refs, size. intros H.
  apply in_seq. split; [lia |]. simpl.
  apply nth_error_Some. destruct (nth_error (constructs g) r); congruence.
Qed.

Lemma node_in_refs g r c : node g r = Some c -> In r (refs g).
Proof.
  unfold node, refs, size. intros H.
  apply in_seq. split; [lia |]. simpl.
  apply nth_error_Some. congruence.
Qed.

Lemma depends_on_resources g r p :
  depends_on g r p = true -> resource_at g r = true /\ resource_at g p = true.
Proof.
  unfold depends_on. rewrite !andb_true_iff. tauto.
Qed.

Lemma in_resources_within g a r :
  In r (resources_within g a) <-> resource_at g r = true /\ within g r a = true.
Proof.
  unfold resources_within. rewrite filter_In, andb_true_iff. split.
  - tauto.
  - intros [Hr Hw]. split; [now apply resource_in_refs | auto].
Qed.

Lemma in_resolved g r p :
  In (r, p) (resolved g) <-> depends_on g r p = true.
Proof.
  unfold resolved, depends_on.
  rewrite in_flat_map, !andb_true_iff, existsb_exists, negb_true_iff.
  split.
  - intros (e & He & Hin). apply filter_In in Hin. destruct Hin as [Hin Hne].
    apply in_prod_iff in Hin. rewrite !in_resources_within in Hin.
    simpl in Hne. apply negb_true_iff in Hne.
    destruct Hin as [[Hr Hwr] [Hp Hwp]].
    repeat split; auto. exists e. rewrite Hwr, Hwp. auto.
  - intros [[[Hr Hp] Hne] (e & He & Hw)]. apply andb_true_iff in Hw.
    exists e. split; [exact He |]. apply filter_In. split.
    + apply in_prod_iff. rewrite !in_resources_within. tauto.
    + simpl. now apply negb_true_iff.
Qed.

Lemma in_direct_in E r q : In q (direct_in E r) <-> In (r, q) E.
Proof.
  unfold direct_in. rewrite in_map_iff. split.
  - intros ([r' q'] & <- & Hf). apply filter_In in Hf. simpl in *.
    destruct Hf as [Hin Heq]. apply Nat.eqb_eq in Heq. now subst.
  - intros H. exists (r, q). split; [reflexivity |].
    apply filter_In. split; [exact H | apply Nat.eqb_refl].
Qed.

Lemma reach_precedes g fuel : forall r p,
  In p (reach (resolved g) fuel r) -> precedes g p r.
Proof.
  induction fuel as [| fuel IH]; intros r p; simpl; [contradiction |].
  rewrite in_app_iff, in_flat_map. intros [Hd | (q & Hq & Hp)].
  - apply precedes_edge. now apply in_resolved, in_direct_in.
  - apply precedes_path with q.
    + now apply IH.
    + apply precedes_edge. now apply in_resolved, in_direct_in.
Qed.

Lemma lookup_table g r :
  r < size g ->
  lookup (predecessor_table g) r = reach (resolved g) (size g) r.
Proof.
  intros Hr. unfold lookup, predecessor_table, refs.
  rewrite (nth_indep _ [] (reach (resolved g) (size g) 0))
    by (rewrite length_map, length_seq; exact Hr).
  rewrite map_nth, seq_nth by exact Hr. reflexivity.
Qed.

Lemma lookup_outside g r : size g <= r -> lookup (predecessor_table g) r = [].
Proof.
  intros Hr. unfold lookup, predecessor_table, refs.
  apply nth_overflow. rewrite length_map, length_seq. exact Hr.
Qed.

(** Every answer [true] of [precedesb] is backed by a path. *)
Lemma precedesb_sound g p r : precedesb g p r = true -> precedes g p r.
Proof.
  unfold precedesb. intros H.
  destruct (Nat.lt_ge_cases r (size g)) as [Hr | Hr].
  - rewrite (lookup_table _ _ Hr) in H. apply mem_In in H.
    now apply reach_precedes in H.
  - rewrite (lookup_outside _ _ Hr) in H. discriminate.
Qed.

(** On a closed table every path is found. *)
Lemma precedesb_complete g :
  closed g = true ->
  forall p r, precedes g p r -> precedesb g p r = true.
Proof.
  intros Hc.
  assert (Hedge : forall p r, depends_on g r p = true ->
            mem p (lookup (predecessor_table g) r) = true /\
            forall x, In x (lookup (predecessor_table g) p) ->
                      mem x (lookup (predecessor_table g) r) = true).
  { intros p r H. apply in_resolved in H.
    unfold closed, closed_table in Hc. rewrite forallb_forall in Hc.
    specialize (Hc _ H). simpl in Hc. apply andb_true_iff in Hc.
    destruct Hc as [H1 H2]. rewrite forallb_forall in H2. auto. }
  assert (Hall : forall p r, precedes g p r ->
            mem p (lookup (predecessor_table g) r) = true /\
            forall x, In x (lookup (predecessor_table g) p) ->
                      mem x (lookup (predecessor_table g) r) = true).
  { intros p r H. induction H as [p r H | p q r _ [IH1 IH1'] _ [IH2 IH2']].
    - now apply Hedge.
    - split.
      + apply IH2'. now apply mem_In.
      + intros x Hx. apply IH2'. apply mem_In. now apply IH1'. }
  intros p r H. unfold precedesb. now apply Hall.
Qed.

Lemma precedes_iff g :
  closed g = true ->
  forall p r, precedes g p r <-> precedesb g p r = true.
Proof.
  intros Hc p r. split; [now apply precedesb_complete | apply precedesb_sound].
Qed.

Lemma not_precedes g :
  closed g = true ->
  forall p r, precedesb g p r = false -> ~ precedes g p r.
Proof.
  intros Hc p r Hb H. apply (precedesb_complete g Hc) in H. congruence.
Qed.

Lemma auto_mode_closed : closed auto_mode_tree = true.
Proof. vm_compute. reflexivity. Qed.

Lemma fargate_closed : closed fargate_tree = true.
Proof. vm_compute. reflexivity. Qed.

(** Neither tree has a cycle. *)
Lemma auto_mode_acyclic r : ~ precedes auto_mode_tree r r.
Proof.
  intros H. apply (precedesb_complete _ auto_mode_closed) in H.
  destruct (Nat.lt_ge_cases r (size auto_mode_tree)) as [Hr | Hr].
  - assert (Hall : (let T := predecessor_table auto_mode_tree in
                    forallb (fun x => negb (mem x (lookup T x)))
                            (refs auto_mode_tree)) = true)
      by (vm_compute; reflexivity).
    cbv zeta in Hall. rewrite forallb_forall in Hall.
    specialize (Hall r ltac:(apply in_seq; unfold size in *; lia)).
    unfold precedesb in H. rewrite H in Hall. discriminate.
  - unfold precedesb in H. rewrite (lookup_outside _ _ Hr) in H. discriminate.
Qed.

Lemma fargate_acyclic r : ~ precedes fargate_tree r r.
Proof.
  intros H. apply (precedesb_complete _ fargate_closed) in H.
  destruct (Nat.lt_ge_cases r (size fargate_tree)) as [Hr | Hr].
  - assert (Hall : (let T := predecessor_table fargate_tree in
                    forallb (fun x => negb (mem x (lookup T x)))
                            (refs fargate_tree)) = true)
      by (vm_compute; reflexivity).
    cbv zeta in Hall. rewrite forallb_forall in Hall.
    specialize (Hall r ltac:(apply in_seq; unfold size in *; lia)).
    unfold precedesb in H. rewrite H in Hall. discriminate.
  - unfold precedesb in H. rewrite (lookup_outside _ _ Hr) in H. discriminate.
Qed.

End OrderFacts.

(** ** The trees built by [app.py] *)

Module BuildFacts.
Import Order OrderFacts.

Lemma main_development account region :
  Application.main (development account region) empty
  = inr (auto_mode_app, auto_mode_tree).
Proof. vm_compute. reflexivity. Qed.

Lemma main_fargate_development account region :
  Application.main (fargate_development account region) empty
  = inr (fargate_app, fargate_tree).
Proof. vm_compute. reflexivity. Qed.

(** The script builds one of two trees, and never fails. *)
Lemma synth_cases ctx account region app g :
  Application.synth ctx account region = inr (app, g) ->
  (mode (compute (eks (resolve_config ctx account region))) = "fargate"
   /\ resolve_config ctx account region = fargate_development account region
   /\ app = fargate_app /\ g = fargate_tree)
  \/
  (mode (compute (eks (resolve_config ctx account region))) = "auto-mode"
   /\ resolve_config ctx account region = development account region
   /\ app = auto_mode_app /\ g = auto_mode_tree).
Proof.
  unfold Application.synth, resolve_config, select_config.
  destruct (String.eqb (compute_mode_of_context ctx) "fargate").
  - rewrite main_fargate_development. intros [= <- <-]. left. auto.
  - rewrite main_development. intros [= <- <-]. right. auto.
Qed.


Lemma synth_default :
  Application.synth None None None = inr (auto_mode_app, auto_mode_tree).
Proof. apply main_development. Qed.

Lemma synth_fargate :
  Application.synth (Some "fargate") None None = inr (fargate_app, fargate_tree).
Proof. apply main_fargate_development. Qed.

(** Checks of a list of pairs against the predecessor table. *)
Lemma precedes_pairs g (l : list (ref * ref)) :
  (let T := predecessor_table g in
   forallb (fun e => mem (fst e) (lookup T (snd e))) l) = true ->
  forall p r, In (p, r) l -> precedes g p r.
Proof.
  cbv zeta. rewrite forallb_forall. intros H p r Hin.
  apply precedesb_sound. exact (H _ Hin).
Qed.

Lemma not_precedes_pairs g (l : list (ref * ref)) :
  closed g = true ->
  (let T := predecessor_table g in
   forallb (fun e => negb (mem (fst e) (lookup T (snd e)))) l) = true ->
  forall p r, In (p, r) l -> ~ precedes g p r.
Proof.
  cbv zeta. rewrite forallb_forall. intros Hc H p r Hin.
  apply (not_precedes g Hc). specialize (H _ Hin). simpl in H.
  unfold precedesb. now apply negb_true_iff.
Qed.

Lemma manifest_node g r m : manifest_at g r = Some m -> exists c, node g r = Some c.
Proof.
  unfold manifest_at. destruct (node g r) as [c |]; [eauto | discriminate].
Qed.

Lemma is_kind_select g k r : is_kind g k r = true -> In r (Check.select g (is_kind g k)).
Proof.
  intros H. apply filter_In. split; [| exact H].
  unfold is_kind in H. destruct (manifest_at g r) as [m |] eqn:Hm; [| discriminate].
  destruct (manifest_node _ _ _ Hm) as [c Hc]. now apply node_in_refs with c.
Qed.

Lemma select_in g (P : ref -> bool) r c :
  node g r = Some c -> P r = true -> In r (Check.select g P).
Proof.
  intros Hn Hp. apply filter_In. split; [now apply node_in_refs with c | exact Hp].
Qed.

Lemma named_select g k n r :
  named g k n r = true -> In r (Check.select g (named g k n)).
Proof.
  intros H. pose proof H as H'. unfold named in H'.
  destruct (manifest_at g r) as [m |] eqn:Hm; [| discriminate].
  destruct (manifest_node _ _ _ Hm) as [c Hc]. now apply select_in with c.
Qed.

Lemma addon_select g r :
  Check.is_addon g r = true -> In r (Check.select g (Check.is_addon g)).
Proof.
  intros H. pose proof H as H'. unfold Check.is_addon in H'.
  destruct (node g r) as [c |] eqn:Hc; [| discriminate].
  now apply select_in with c.
Qed.

Lemma manifest_select g r :
  Check.is_manifest g r = true -> In r (Check.select g (Check.is_manifest g)).
Proof.
  intros H. pose proof H as H'. unfold Check.is_manifest in H'.
  destruct (manifest_at g r) as [m |] eqn:Hm; [| discriminate].
  destruct (manifest_node _ _ _ Hm) as [c Hc]. now apply select_in with c.
Qed.

Lemma profile_select g r ns :
  Check.profile_namespace g r = Some ns ->
  In r (Check.select g (Check.is_profile g)).
Proof.
  intros H. assert (Hp : Check.is_profile g r = true)
    by (unfold Check.is_profile; now rewrite H).
  unfold Check.profile_namespace in H.
  destruct (node g r) as [c |] eqn:Hc; [| discriminate].
  now apply select_in with c.
Qed.

Lemma workload_listed g d s h :
  Check.workload g d s h = true -> In (d, s, h) (Check.workloads g).
Proof.
  intros H. pose proof H as H'. unfold Check.workload in H'.
  destruct (manifest_at g d) as [md |] eqn:Hd; [| discriminate].
  destruct (manifest_at g s) as [ms |] eqn:Hs; [| discriminate].
  destruct (manifest_at g h) as [mh |] eqn:Hh; [| discriminate].
  rewrite !andb_true_iff in H'.
  destruct H' as (((((Kd & Ks) & Kh) & _) & _) & _).
  unfold Check.workloads. apply in_flat_map. exists h. split.
  { apply is_kind_select. unfold is_kind. now rewrite Hh. }
  apply in_flat_map. exists d. split.
  { apply is_kind_select. unfold is_kind. now rewrite Hd. }
  apply in_flat_map. exists s. split.
  { apply is_kind_select. unfold is_kind. now rewrite Hs. }
  rewrite H. simpl. auto.
Qed.

Lemma role_binding_listed g b r :
  Check.role_ref_is g b r = true -> In (b, r) (Check.role_bindings g).
Proof.
  intros H. pose proof H as H'. unfold Check.role_ref_is in H'.
  destruct (manifest_at g b) as [mb |] eqn:Hb; [| discriminate].
  destruct (manifest_at g r) as [mr |] eqn:Hr; [| discriminate].
  rewrite !andb_true_iff in H'. destruct H' as ((Kb & Kr) & _).
  unfold Check.role_bindings. apply in_flat_map. exists b. split.
  { apply is_kind_select. unfold is_kind. now rewrite Hb. }
  apply in_flat_map. exists r. split.
  { apply is_kind_select. unfold is_kind. now rewrite Hr. }
  rewrite H. simpl. auto.
Qed.

End BuildFacts.

Import Order OrderFacts BuildFacts.

(** Tactics that settle an ordering question on a built tree by one
    evaluation of its predecessor table. *)
Ltac absent_in g Hc ps rs :=
  eapply (not_precedes_pairs g (list_prod ps rs));
  [exact Hc | vm_compute; reflexivity | apply in_prod; simpl; auto].

Ltac present_in g ps rs :=
  eapply (precedes_pairs g (list_prod ps rs));
  [vm_compute; reflexivity | apply in_prod; simpl; auto].

Ltac c3_script app g Hc :=
  cbv zeta;
  pose (d := PrometheusAdapterConstruct.prometheus_adapter_deployment
               (Application.prometheus_adapter app));
  pose (s := PrometheusAdapterConstruct.prometheus_adapter_apiservice
               (Application.prometheus_adapter app));
  split; [vm_compute; reflexivity |];
  split; [vm_compute; reflexivity |];
  split; [vm_compute; reflexivity |];
  split; [| split; [| split; [| split]]];
  [ intros h Hh; apply is_kind_select in Hh; split;
    [ absent_in g Hc [d] (Check.select g (Check.is_hpa g))
    | absent_in g Hc [s] (Check.select g (Check.is_hpa g)) ]
  | intros p Hp; apply named_select in Hp;
    absent_in g Hc
      (Check.select g (Order.named g "Deployment" "prometheus-server")) [d]
  | intros w Hw; simpl in Hw;
    destruct Hw as [<- | [<- | [<- | [<- | []]]]]; vm_compute; tauto
  | vm_compute; tauto
  | intros w r Hw Hr;
    let Hall := fresh "Hall" in
    assert (Hall : forallb (fun w =>
                     forallb (fun r => negb (resource_at g r)
                                       || negb (within g r w)) (refs g))
                     [PrometheusAdapterConstruct.self (Application.prometheus_adapter app);
                      PrometheusConstruct.self (Application.prometheus app);
                      SampleAppConstruct.self (Application.sample_app app);
                      OtelAppConstruct.self (Application.otel_app app);
                      GoOtelAppConstruct.self (Application.go_otel_app app);
                      JavaOtelAppConstruct.self (Application.java_otel_app app)]
                   = true) by (vm_compute; reflexivity);
    rewrite forallb_forall in Hall; specialize (Hall w Hw);
    rewrite forallb_forall in Hall;
    specialize (Hall r (resource_in_refs _ _ Hr));
    rewrite Hr in Hall; simpl in Hall; now apply negb_true_iff ].

(** C3: what the tree holds for the autoscalers and the adapter.  The
    four autoscalers are the only ones, and for none of them is the
    adapter Deployment or the adapter APIService a predecessor; nor is
    the Prometheus Deployment a predecessor of the adapter Deployment.
    The edges that [app.py] declares join the wrapper constructs
    [SampleMetricsApp], [OtelSampleApp], [GoOtelSampleApp],
    [JavaOtelSampleApp], [PrometheusAdapter] and [Prometheus], and no
    resource lies in the scope of any of these wrappers. *)
Theorem C3_adapter_is_not_a_predecessor_of_the_autoscalers
    (ctx account region : option string) (app : Application.t) (g : tree) :
  Application.synth ctx account region = inr (app, g) ->
  let adapter := Application.prometheus_adapter app in
  let deployment :=
    PrometheusAdapterConstruct.prometheus_adapter_deployment adapter in
  let apiservice :=
    PrometheusAdapterConstruct.prometheus_adapter_apiservice adapter in
  let wrappers :=
    [SampleAppConstruct.self (Application.sample_app app);
     OtelAppConstruct.self (Application.otel_app app);
     GoOtelAppConstruct.self (Application.go_otel_app app);
     JavaOtelAppConstruct.self (Application.java_otel_app app)] in
  Check.select g (Check.is_hpa g)
  = [SampleAppConstruct.sample_hpa (Application.sample_app app);
     OtelAppConstruct.otel_hpa (Application.otel_app app);
     GoOtelAppConstruct.go_hpa (Application.go_otel_app app);
     JavaOtelAppConstruct.java_hpa (Application.java_otel_app app)]
  /\ Order.named g "Deployment" "prometheus-adapter" deployment = true
  /\ Order.named g "APIService" "v1beta1.custom.metrics.k8s.io" apiservice
     = true
  /\ (forall h, Check.is_hpa g h = true ->
        ~ precedes g deployment h /\ ~ precedes g apiservice h)
  /\ (forall p, Order.named g "Deployment" "prometheus-server" p = true ->
        ~ precedes g p deployment)
  /\ (forall w, In w wrappers ->
        In (w, PrometheusAdapterConstruct.self adapter) (dependencies g))
  /\ In (PrometheusAdapterConstruct.self adapter,
         PrometheusConstruct.self (Application.prometheus app))
        (dependencies g)
  /\ (forall w r,
        In w (PrometheusAdapterConstruct.self adapter
              :: PrometheusConstruct.self (Application.prometheus app)
              :: wrappers) ->
        resource_at g r = true -> within g r w = false).
Proof.
  intros H. apply synth_cases in H.
  destruct H as [(_ & _ & -> & ->) | (_ & _ & -> & ->)].
  - c3_script fargate_app fargate_tree fargate_closed.
  - c3_script auto_mode_app auto_mode_tree auto_mode_closed.
Qed.

Lemma C3_adapter_is_not_a_predecessor_of_the_autoscalers_witness :
  ~ precedes auto_mode_tree
      (PrometheusAdapterConstruct.prometheus_adapter_deployment
         (Application.prometheus_adapter auto_mode_app))
      (SampleAppConstruct.sample_hpa (Application.sample_app auto_mode_app)).
Proof.
  apply (C3_adapter_is_not_a_predecessor_of_the_autoscalers
           None None None auto_mode_app auto_mode_tree).
  - vm_compute. reflexivity.
  - vm_compute. reflexivity.
Defined.

(** The projections of a workload triple. *)
Ltac c4_script g Hc :=
  split; [vm_compute; reflexivity |];
  intros d s h Hw; apply workload_listed in Hw;
  repeat split;
  [ eapply (precedes_pairs g
              (map (fun w => (fst (fst w), snd (fst w))) (Check.workloads g)));
    [vm_compute; reflexivity | exact (in_map _ _ _ Hw)]
  | eapply (precedes_pairs g
              (map (fun w => (fst (fst w), snd w)) (Check.workloads g)));
    [vm_compute; reflexivity | exact (in_map _ _ _ Hw)]
  | eapply (not_precedes_pairs g
              (map (fun w => (snd (fst w), snd w)) (Check.workloads g)));
    [exact Hc | vm_compute; reflexivity | exact (in_map _ _ _ Hw)]
  | eapply (not_precedes_pairs g
              (map (fun w => (snd w, snd (fst w))) (Check.workloads g)));
    [exact Hc | vm_compute; reflexivity | exact (in_map _ _ _ Hw)] ].

(** C4, as the code has it: the tree holds four workloads; in each the
    Deployment is a predecessor of the Service and of the autoscaler,
    and the Service and the autoscaler are not ordered with respect to
    each other. *)
Theorem C4_deployment_before_service_and_autoscaler
    (ctx account region : option string) (app : Application.t) (g : tree) :
  Application.synth ctx account region = inr (app, g) ->
  length (Check.workloads g) = 4
  /\ forall d s h, Check.workload g d s h = true ->
       precedes g d s /\ precedes g d h
       /\ ~ precedes g s h /\ ~ precedes g h s.
Proof.
  intros H. apply synth_cases in H.
  destruct H as [(_ & _ & -> & ->) | (_ & _ & -> & ->)].
  - c4_script fargate_tree fargate_closed.
  - c4_script auto_mode_tree auto_mode_closed.
Qed.

Lemma C4_deployment_before_service_and_autoscaler_witness :
  length (Check.workloads auto_mode_tree) = 4
  /\ forall d s h, Check.workload auto_mode_tree d s h = true ->
       precedes auto_mode_tree d s /\ precedes auto_mode_tree d h
       /\ ~ precedes auto_mode_tree s h /\ ~ precedes auto_mode_tree h s.
Proof.
  apply (C4_deployment_before_service_and_autoscaler
           None None None auto_mode_app auto_mode_tree).
  vm_compute. reflexivity.
Defined.

(** C4 as stated fails on the default build: the Service of the sample
    metrics workload is not a predecessor of its autoscaler. *)
Lemma C4_service_before_autoscaler_counterexample :
  Application.synth None None None = inr (auto_mode_app, auto_mode_tree)
  /\ ~ (forall d s h, Check.workload auto_mode_tree d s h = true ->
          precedes auto_mode_tree d s /\ precedes auto_mode_tree s h).
Proof.
  split; [vm_compute; reflexivity |].
  intros H. specialize (H 50 51 52 ltac:(vm_compute; reflexivity)).
  destruct H as [_ H]. revert H.
  apply (not_precedes _ auto_mode_closed). vm_compute. reflexivity.
Qed.

Ltac c5_script g Hc :=
  split; [vm_compute; reflexivity |];
  split; [| split];
  [ intros b r Hb Hn; apply role_binding_listed in Hb;
    vm_compute in Hb;
    repeat (destruct Hb as [Hb | Hb];
            [ injection Hb as <- <-;
              first [ apply precedesb_sound; vm_compute; reflexivity
                    | vm_compute in Hn; discriminate ] |]);
    contradiction
  | intros b r Hb Hn; apply role_binding_listed in Hb;
    vm_compute in Hb;
    repeat (destruct Hb as [Hb | Hb];
            [ injection Hb as <- <-;
              first [ vm_compute in Hn; discriminate
                    | split; [ apply (not_precedes g Hc); vm_compute; reflexivity
                             | vm_compute; reflexivity ] ] |]);
    contradiction
  | vm_compute; reflexivity ].

(** C5 on the code: the tree holds three ClusterRoleBindings with the
    ClusterRole each one names.  For the bindings of Prometheus and of
    the OTEL collector the role is a predecessor of the binding; for the
    binding of the Prometheus Adapter it is not, and no edge joins the
    two. *)
Theorem C5_role_before_binding_except_for_the_adapter
    (ctx account region : option string) (app : Application.t) (g : tree) :
  Application.synth ctx account region = inr (app, g) ->
  map (fun br => (Check.pod_name_at g (fst br), Check.pod_name_at g (snd br)))
      (Check.role_bindings g)
  = [("prometheus-cluster-role-binding", "prometheus-cluster-role");
     ("prometheus-adapter", "prometheus-adapter");
     ("otel-collector-role-binding", "otel-collector-role")]
  /\ (forall b r, Check.role_ref_is g b r = true ->
        Order.named g "ClusterRoleBinding" "prometheus-adapter" b = false ->
        precedes g r b)
  /\ (forall b r, Check.role_ref_is g b r = true ->
        Order.named g "ClusterRoleBinding" "prometheus-adapter" b = true ->
        ~ precedes g r b /\ depends_on g b r = false)
  /\ existsb (fun br => Order.named g "ClusterRoleBinding" "prometheus-adapter"
                                    (fst br))
             (Check.role_bindings g) = true.
Proof.
  intros H. apply synth_cases in H.
  destruct H as [(_ & _ & -> & ->) | (_ & _ & -> & ->)].
  - c5_script fargate_tree fargate_closed.
  - c5_script auto_mode_tree auto_mode_closed.
Qed.

Lemma C5_role_before_binding_except_for_the_adapter_witness :
  existsb (fun br => Order.named auto_mode_tree "ClusterRoleBinding"
                                 "prometheus-adapter" (fst br))
          (Check.role_bindings auto_mode_tree) = true.
Proof.
  apply (C5_role_before_binding_except_for_the_adapter
           None None None auto_mode_app auto_mode_tree).
  vm_compute. reflexivity.
Defined.

(** C6, as the code has it: in Auto Mode the stack holds the enablement
    custom resource; it is a predecessor of each of the four add-ons
    (coredns, eks-pod-identity-agent, vpc-cni, kube-proxy) and a
    successor of the cluster; and it is a predecessor of no Kubernetes
    manifest, so no workload is ordered after it. *)
Theorem C6_enabler_between_cluster_and_addons
    (ctx account region : option string) (app : Application.t) (g : tree) :
  Application.synth ctx account region = inr (app, g) ->
  mode (compute (eks (resolve_config ctx account region))) = "auto-mode" ->
  exists enabler,
    EksClusterStack.auto_mode_enabler (Application.eks_cluster_stack app)
    = Some enabler
    /\ map (Check.addon_name_at g) (Check.select g (Check.is_addon g))
       = [Some "coredns"; Some "eks-pod-identity-agent"; Some "vpc-cni";
          Some "kube-proxy"]
    /\ (forall a, Check.is_addon g a = true -> precedes g enabler a)
    /\ precedes g (EksClusterStack.cluster (Application.eks_cluster_stack app))
                enabler
    /\ (forall w, Check.is_manifest g w = true -> ~ precedes g enabler w).
Proof.
  intros H Hmode. apply synth_cases in H.
  destruct H as [(Hm & _ & -> & ->) | (_ & _ & -> & ->)].
  - rewrite Hm in Hmode. discriminate.
  - exists 15. split; [vm_compute; reflexivity |].
    split; [vm_compute; reflexivity |].
    split; [| split].
    + intros a Ha. apply addon_select in Ha.
      eapply (precedes_pairs auto_mode_tree
                (list_prod [15] (Check.select auto_mode_tree
                                   (Check.is_addon auto_mode_tree))));
        [vm_compute; reflexivity | apply in_prod; simpl; auto].
    + apply precedesb_sound. vm_compute. reflexivity.
    + intros w Hw. apply manifest_select in Hw.
      eapply (not_precedes_pairs auto_mode_tree
                (list_prod [15] (Check.select auto_mode_tree
                                   (Check.is_manifest auto_mode_tree))));
        [apply auto_mode_closed | vm_compute; reflexivity
        | apply in_prod; simpl; auto].
Qed.

Lemma C6_enabler_between_cluster_and_addons_witness :
  exists enabler,
    EksClusterStack.auto_mode_enabler
      (Application.eks_cluster_stack auto_mode_app) = Some enabler
    /\ map (Check.addon_name_at auto_mode_tree)
           (Check.select auto_mode_tree (Check.is_addon auto_mode_tree))
       = [Some "coredns"; Some "eks-pod-identity-agent"; Some "vpc-cni";
          Some "kube-proxy"]
    /\ (forall a, Check.is_addon auto_mode_tree a = true ->
                  precedes auto_mode_tree enabler a)
    /\ precedes auto_mode_tree
         (EksClusterStack.cluster (Application.eks_cluster_stack auto_mode_app))
         enabler
    /\ (forall w, Check.is_manifest auto_mode_tree w = true ->
                  ~ precedes auto_mode_tree enabler w).
Proof.
  apply (C6_enabler_between_cluster_and_addons None None None).
  - vm_compute. reflexivity.
  - vm_compute. reflexivity.
Defined.

(** C6 as stated fails on the default build: the Deployment of the sample
    metrics workload does not have the enablement resource among its
    predecessors. *)
Lemma C6_workloads_after_enabler_counterexample :
  Application.synth None None None = inr (auto_mode_app, auto_mode_tree)
  /\ EksClusterStack.auto_mode_enabler
       (Application.eks_cluster_stack auto_mode_app) = Some 15
  /\ Order.named auto_mode_tree "Deployment" "sample-metrics-app" 50 = true
  /\ ~ precedes auto_mode_tree 15 50.
Proof.
  split; [vm_compute; reflexivity |].
  split; [reflexivity |].
  split; [vm_compute; reflexivity |].
  apply (not_precedes _ auto_mode_closed). vm_compute. reflexivity.
Qed.

(** What the tree holds instead: the manifests are children of the
    cluster, on which the enablement resource depends, so each of them is
    a predecessor of it. *)
Lemma manifests_precede_the_enabler w :
  Check.is_manifest auto_mode_tree w = true -> precedes auto_mode_tree w 15.
Proof.
  intros Hw. apply manifest_select in Hw.
  eapply (precedes_pairs auto_mode_tree
            (list_prod (Check.select auto_mode_tree
                          (Check.is_manifest auto_mode_tree)) [15]));
    [vm_compute; reflexivity | apply in_prod; simpl; auto].
Qed.

(** C9: in Fargate mode every namespace of the configured list has its
    Fargate profile in the tree, and no Namespace manifest is a
    predecessor of a profile, directly or through a path. *)
Theorem C9_fargate_profiles_do_not_wait_for_namespaces
    (ctx account region : option string) (app : Application.t) (g : tree)
    (ns : string) :
  Application.synth ctx account region = inr (app, g) ->
  mode (compute (eks (resolve_config ctx account region))) = "fargate" ->
  In ns (fargate_profiles (compute (eks (resolve_config ctx account region)))) ->
  (exists p, Check.profile_namespace g p = Some ns)
  /\ (forall p n,
        Check.profile_namespace g p = Some ns ->
        Order.is_kind g "Namespace" n = true ->
        depends_on g p n = false /\ ~ precedes g n p).
Proof.
  intros H Hmode Hin. apply synth_cases in H.
  destruct H as [(_ & Hcfg & -> & ->) | (Hm & _ & -> & ->)].
  - rewrite Hcfg in Hin. simpl in Hin. split.
    + destruct Hin as [<- | [<- | [<- | [<- | []]]]];
        [exists 12 | exists 13 | exists 14 | exists 15]; vm_compute; reflexivity.
    + intros p n Hp Hn. apply profile_select in Hp. apply is_kind_select in Hn.
      split.
      * assert (Hall : forallb (fun e => negb (depends_on fargate_tree (fst e) (snd e)))
                  (list_prod (Check.select fargate_tree (Check.is_profile fargate_tree))
                             (Check.select fargate_tree
                                (Order.is_kind fargate_tree "Namespace"))) = true)
          by (vm_compute; reflexivity).
        rewrite forallb_forall in Hall.
        specialize (Hall (p, n) (in_prod _ _ _ _ Hp Hn)).
        now apply negb_true_iff in Hall.
      * eapply (not_precedes_pairs fargate_tree
                  (list_prod (Check.select fargate_tree
                                (Order.is_kind fargate_tree "Namespace"))
                             (Check.select fargate_tree
                                (Check.is_profile fargate_tree))));
          [apply fargate_closed | vm_compute; reflexivity
          | apply in_prod; assumption].
  - rewrite Hm in Hmode. discriminate.
Qed.

Lemma C9_fargate_profiles_do_not_wait_for_namespaces_witness :
  (exists p, Check.profile_namespace fargate_tree p = Some "monitoring")
  /\ (forall p n,
        Check.profile_namespace fargate_tree p = Some "monitoring" ->
        Order.is_kind fargate_tree "Namespace" n = true ->
        depends_on fargate_tree p n = false /\ ~ precedes fargate_tree n p).
Proof.
  apply (C9_fargate_profiles_do_not_wait_for_namespaces
           (Some "fargate") None None fargate_app).
  - vm_compute. reflexivity.
  - vm_compute. reflexivity.
  - vm_compute. auto.
Defined.

(** ** Compute-mode overlays *)

Lemma branch_depends_on_mode_only (c1 c2 : ComputeConfig) :
  mode c1 = mode c2 -> branch c1 = branch c2.
Proof.
  intros H. unfold branch, SampleAppConstruct._get_pod_spec, is_fargate.
  rewrite H. reflexivity.
Qed.

(** The five constructs that define [_get_pod_spec] define the same
    function. *)
Lemma pod_spec_methods_agree (c : option ComputeConfig) :
  PrometheusConstruct._get_pod_spec c = SampleAppConstruct._get_pod_spec c
  /\ OtelAppConstruct._get_pod_spec c = SampleAppConstruct._get_pod_spec c
  /\ GoOtelAppConstruct._get_pod_spec c = SampleAppConstruct._get_pod_spec c
  /\ JavaOtelAppConstruct._get_pod_spec c = SampleAppConstruct._get_pod_spec c.
Proof. repeat split. Qed.

(** The two rule documents differ as texts, and only in their comment
    lines. *)
Lemma adapter_configs_differ :
  PrometheusAdapterConstruct._get_adapter_config "auto-mode"
  <> PrometheusAdapterConstruct._get_adapter_config "fargate".
Proof.
  apply String.eqb_neq. vm_compute. reflexivity.
Qed.

Lemma adapter_rules_agree :
  PrometheusAdapterConstruct.rule_lines
    PrometheusAdapterConstruct.auto_mode_config_lines
  = PrometheusAdapterConstruct.rule_lines
      PrometheusAdapterConstruct.fargate_config_lines.
Proof. vm_compute. reflexivity. Qed.

Lemma hints_of_built_pods g fargate :
  forallb (Check.hints_as_expected g fargate) (refs g) = true ->
  forall d spec, Check.pod_spec_at g d = Some spec ->
    has_key "nodeSelector" spec
    = Check.expected_node_selector fargate (Check.pod_name_at g d)
    /\ has_key "tolerations" spec
       = Check.expected_tolerations fargate (Check.pod_name_at g d).
Proof.
  rewrite forallb_forall. intros Hall d spec Hspec.
  assert (Hd : In d (refs g)).
  { unfold Check.pod_spec_at in Hspec.
    destruct (manifest_at g d) as [m |] eqn:Hm; [| discriminate].
    destruct (manifest_node _ _ _ Hm) as [c Hc]. now apply node_in_refs with c. }
  specialize (Hall d Hd). unfold Check.hints_as_expected in Hall.
  rewrite Hspec in Hall. apply andb_true_iff in Hall.
  destruct Hall as [H1 H2]. split; now apply eqb_prop.
Qed.

(** C8, as the code has it.  The overlay is a function of the mode
    alone; the Auto Mode and the Fargate overlays differ in the pod
    placement hints, in the adapter toleration and in the adapter rule
    document, whose two versions hold the same lines once the comment
    lines are left out.  The pods of Prometheus and of the four sample workloads
    carry a [nodeSelector] and [tolerations] in Fargate mode and neither
    in Auto Mode; the adapter pod carries [tolerations] and no
    [nodeSelector] in both modes; the collector pod carries neither in
    both modes. *)
Theorem C8_compute_mode_overlays
    (ctx account region : option string) (app : Application.t) (g : tree) :
  Application.synth ctx account region = inr (app, g) ->
  let fargate :=
    String.eqb (mode (compute (eks (resolve_config ctx account region))))
               "fargate" in
  let auto_overlay := branch (compute (eks (development account region))) in
  let fargate_overlay :=
    branch (compute (eks (fargate_development account region))) in
  (forall c1 c2, mode c1 = mode c2 -> branch c1 = branch c2)
  /\ pod_spec auto_overlay = []
  /\ (has_key "nodeSelector" (pod_spec fargate_overlay) = true
      /\ has_key "tolerations" (pod_spec fargate_overlay) = true)
  /\ adapter_tolerations auto_overlay <> adapter_tolerations fargate_overlay
  /\ adapter_config auto_overlay <> adapter_config fargate_overlay
  /\ PrometheusAdapterConstruct.rule_lines
       PrometheusAdapterConstruct.auto_mode_config_lines
     = PrometheusAdapterConstruct.rule_lines
         PrometheusAdapterConstruct.fargate_config_lines
  /\ map (Check.pod_name_at g) (Check.select g (Check.has_pod_spec g))
     = ["prometheus-server"; "prometheus-adapter"; "sample-metrics-app";
        "otel-collector"; "otel-sample-app"; "go-otel-sample-app";
        "java-otel-sample-app"]
  /\ (forall d spec, Check.pod_spec_at g d = Some spec ->
        has_key "nodeSelector" spec
        = Check.expected_node_selector fargate (Check.pod_name_at g d)
        /\ has_key "tolerations" spec
           = Check.expected_tolerations fargate (Check.pod_name_at g d)).
Proof.
  intros H. cbv zeta.
  split; [exact branch_depends_on_mode_only |].
  split; [reflexivity |].
  split; [split; reflexivity |].
  split; [discriminate |].
  split; [exact adapter_configs_differ |].
  split; [exact adapter_rules_agree |].
  apply synth_cases in H.
  destruct H as [(Hm & _ & -> & ->) | (Hm & _ & -> & ->)]; rewrite Hm.
  - split; [vm_compute; reflexivity |].
    apply hints_of_built_pods. vm_compute. reflexivity.
  - split; [vm_compute; reflexivity |].
    apply hints_of_built_pods. vm_compute. reflexivity.
Qed.

Lemma C8_compute_mode_overlays_witness :
  map (Check.pod_name_at fargate_tree)
      (Check.select fargate_tree (Check.has_pod_spec fargate_tree))
  = ["prometheus-server"; "prometheus-adapter"; "sample-metrics-app";
     "otel-collector"; "otel-sample-app"; "go-otel-sample-app";
     "java-otel-sample-app"]
  /\ (forall d spec, Check.pod_spec_at fargate_tree d = Some spec ->
        has_key "nodeSelector" spec
        = Check.expected_node_selector true (Check.pod_name_at fargate_tree d)
        /\ has_key "tolerations" spec
           = Check.expected_tolerations true
               (Check.pod_name_at fargate_tree d)).
Proof.
  apply (C8_compute_mode_overlays (Some "fargate") None None
           fargate_app fargate_tree).
  vm_compute. reflexivity.
Defined.

(** C8 as stated fails on both builds: in Auto Mode the adapter pod
    carries a toleration, and in Fargate mode the collector pod carries
    no placement hint. *)
Lemma C8_placement_hints_counterexample :
  ~ (forall d spec, Check.pod_spec_at auto_mode_tree d = Some spec ->
       has_key "nodeSelector" spec = false /\ has_key "tolerations" spec = false)
  /\ ~ (forall d spec, Check.pod_spec_at fargate_tree d = Some spec ->
          has_key "nodeSelector" spec = true /\ has_key "tolerations" spec = true).
Proof.
  split; intros H.
  - destruct (H 46 _ eq_refl) as [_ Ht]. vm_compute in Ht. discriminate.
  - destruct (H 58 _ eq_refl) as [Hn _]. vm_compute in Hn. discriminate.
Qed.

(** * Further properties *)

(** * Further properties of the code *)

(** ** The Auto Mode callback *)







(** ** The tree built by [app.py] *)


(** X5: in either mode the ordering of the built tree has no cycle: no
    resource is its own predecessor. *)
Theorem X5_built_tree_is_acyclic (ctx account region : option string)
    (app : Application.t) (g : tree) (r : ref) :
  Application.synth ctx account region = inr (app, g) ->
  ~ precedes g r r.
Proof.
  intros H. apply synth_cases in H.
  destruct H as [(_ & _ & _ & ->) | (_ & _ & _ & ->)];
    [apply fargate_acyclic | apply auto_mode_acyclic].
Qed.

Lemma X5_built_tree_is_acyclic_witness :
  ~ precedes auto_mode_tree
      (SampleAppConstruct.sample_hpa (Application.sample_app auto_mode_app))
      (SampleAppConstruct.sample_hpa (Application.sample_app auto_mode_app)).
Proof.
  apply (X5_built_tree_is_acyclic None None None auto_mode_app).
  vm_compute. reflexivity.
Defined.

Lemma service_account_check g :
  (let T := predecessor_table g in
   forallb (fun d =>
              match Wiring.service_account_of g d with
              | Some (n, ns) =>
                  existsb (fun sa => Wiring.is_service_account g n ns sa
                                     && mem sa (lookup T d)) (refs g)
              | None => true
              end) (refs g)) = true ->
  forall d n ns, Wiring.service_account_of g d = Some (n, ns) ->
    exists sa, Wiring.is_service_account g n ns sa = true /\ precedes g sa d.
Proof.
  cbv zeta. rewrite forallb_forall. intros Hall d n ns Hd.
  assert (Hin : In d (refs g)).
  { unfold Wiring.service_account_of in Hd.
    destruct (manifest_at g d) as [m |] eqn:Hm; [| discriminate].
    destruct (manifest_node _ _ _ Hm) as [c Hc]. now apply node_in_refs with c. }
  specialize (Hall d Hin). rewrite Hd in Hall.
  apply existsb_exists in Hall. destruct Hall as (sa & _ & Hsa).
  apply andb_true_iff in Hsa. destruct Hsa as [H1 H2].
  exists sa. split; [exact H1 | now apply precedesb_sound].
Qed.

(** X6: in either mode, every Deployment whose pod template names a
    service account has that service account, in its own namespace, among
    its predecessors.  Three Deployments name one: Prometheus, the
    adapter and the collector. *)
Theorem X6_service_account_before_deployment
    (ctx account region : option string) (app : Application.t) (g : tree) :
  Application.synth ctx account region = inr (app, g) ->
  map (fun d => (Check.pod_name_at g d, Wiring.service_account_of g d))
      (Check.select g (fun d => match Wiring.service_account_of g d with
                                | Some _ => true | None => false end))
  = [("prometheus-server", Some ("amp-iamproxy-service-account", "monitoring"));
     ("prometheus-adapter", Some ("prometheus-adapter", "monitoring"));
     ("otel-collector", Some ("otel-collector-sa", "opentelemetry"))]
  /\ forall d n ns, Wiring.service_account_of g d = Some (n, ns) ->
       exists sa, Wiring.is_service_account g n ns sa = true /\ precedes g sa d.
Proof.
  intros H. apply synth_cases in H.
  destruct H as [(_ & _ & _ & ->) | (_ & _ & _ & ->)].
  - split; [vm_compute; reflexivity |].
    apply service_account_check. vm_compute. reflexivity.
  - split; [vm_compute; reflexivity |].
    apply service_account_check. vm_compute. reflexivity.
Qed.

Lemma X6_service_account_before_deployment_witness :
  exists sa,
    Wiring.is_service_account fargate_tree "otel-collector-sa" "opentelemetry" sa
    = true
    /\ precedes fargate_tree sa 58.
Proof.
  apply (proj2 (X6_service_account_before_deployment
                  (Some "fargate") None None fargate_app fargate_tree
                  ltac:(vm_compute; reflexivity))).
  vm_compute. reflexivity.
Defined.

Lemma namespace_first_sound g ns r :
  Wiring.namespace_first g (predecessor_table g) ns r = true ->
  exists n, named g "Namespace" ns n = true /\ precedes g n r.
Proof.
  unfold Wiring.namespace_first. rewrite existsb_exists.
  intros (n & _ & Hn). apply andb_true_iff in Hn. destruct Hn as [H1 H2].
  exists n. split; [exact H1 | now apply precedesb_sound].
Qed.

Lemma namespace_first_complete g ns r :
  closed g = true ->
  Wiring.namespace_first g (predecessor_table g) ns r = false ->
  forall n, named g "Namespace" ns n = true -> ~ precedes g n r.
Proof.
  unfold Wiring.namespace_first. intros Hc Hf n Hn Hp.
  apply (precedesb_complete g Hc) in Hp.
  assert (Hin : In n (refs g)).
  { apply named_select in Hn. unfold Check.select in Hn.
    now apply filter_In in Hn. }
  assert (Ht : existsb (fun n0 => named g "Namespace" ns n0
                                  && mem n0 (lookup (predecessor_table g) r))
                       (refs g) = true).
  { apply existsb_exists. exists n. split; [exact Hin |].
    unfold precedesb in Hp. now rewrite Hn, Hp. }
  congruence.
Qed.

Lemma namespace_order_check g :
  closed g = true ->
  (let T := predecessor_table g in
   forallb (fun r =>
              match Wiring.namespace_of g r with
              | Some ns =>
                  implb (Check.one_of ns (Wiring.declared_namespaces g))
                        (Bool.eqb (Wiring.namespace_first g T ns r)
                                  (negb (Check.one_of (Wiring.id_at g r)
                                                      Wiring.adapter_objects)))
              | None => true
              end) (refs g)) = true ->
  forall r ns,
    Wiring.namespace_of g r = Some ns ->
    Check.one_of ns (Wiring.declared_namespaces g) = true ->
    (Check.one_of (Wiring.id_at g r) Wiring.adapter_objects = false ->
       exists n, named g "Namespace" ns n = true /\ precedes g n r)
    /\ (Check.one_of (Wiring.id_at g r) Wiring.adapter_objects = true ->
       forall n, named g "Namespace" ns n = true -> ~ precedes g n r).
Proof.
  cbv zeta. rewrite forallb_forall. intros Hc Hall r ns Hr Hns.
  assert (Hin : In r (refs g)).
  { unfold Wiring.namespace_of in Hr.
    destruct (node g r) as [c |] eqn:Hn; [| discriminate].
    now apply node_in_refs with c. }
  specialize (Hall r Hin). rewrite Hr, Hns in Hall. cbn [implb] in Hall.
  apply eqb_prop in Hall. split; intros Ha; rewrite Ha in Hall;
    cbn [negb] in Hall.
  - now apply namespace_first_sound.
  - now apply namespace_first_complete.
Qed.

(** X7: the tree declares Namespace manifests for [monitoring] (twice:
    one by the cluster stack, one by the adapter construct, which is
    built without the stack's) and for [opentelemetry].  In either mode,
    an object placed in one of these namespaces has a Namespace manifest
    of that name among its predecessors, unless it is one of the four
    objects of the adapter construct (its service account, ConfigMap,
    Deployment and Service), which have none. *)
Theorem X7_namespace_before_its_objects
    (ctx account region : option string) (app : Application.t) (g : tree) :
  Application.synth ctx account region = inr (app, g) ->
  Wiring.declared_namespaces g = ["monitoring"; "opentelemetry"; "monitoring"]
  /\ forall r ns,
       Wiring.namespace_of g r = Some ns ->
       Check.one_of ns (Wiring.declared_namespaces g) = true ->
       (Check.one_of (Wiring.id_at g r) Wiring.adapter_objects = false ->
          exists n, named g "Namespace" ns n = true /\ precedes g n r)
       /\ (Check.one_of (Wiring.id_at g r) Wiring.adapter_objects = true ->
          forall n, named g "Namespace" ns n = true -> ~ precedes g n r).
Proof.
  intros H. apply synth_cases in H.
  destruct H as [(_ & _ & _ & ->) | (_ & _ & _ & ->)].
  - split; [vm_compute; reflexivity |].
    apply namespace_order_check; [apply fargate_closed | vm_compute; reflexivity].
  - split; [vm_compute; reflexivity |].
    apply namespace_order_check;
      [apply auto_mode_closed | vm_compute; reflexivity].
Qed.

Lemma X7_namespace_before_its_objects_witness :
  Wiring.declared_namespaces auto_mode_tree
  = ["monitoring"; "opentelemetry"; "monitoring"]
  /\ forall r ns,
       Wiring.namespace_of auto_mode_tree r = Some ns ->
       Check.one_of ns (Wiring.declared_namespaces auto_mode_tree) = true ->
       (Check.one_of (Wiring.id_at auto_mode_tree r) Wiring.adapter_objects
        = false ->
          exists n, named auto_mode_tree "Namespace" ns n = true
                    /\ precedes auto_mode_tree n r)
       /\ (Check.one_of (Wiring.id_at auto_mode_tree r) Wiring.adapter_objects
           = true ->
          forall n, named auto_mode_tree "Namespace" ns n = true ->
                    ~ precedes auto_mode_tree n r).
Proof.
  apply (X7_namespace_before_its_objects None None None auto_mode_app).
  vm_compute. reflexivity.
Defined.

Lemma adapter_config_lines compute_mode :
  PrometheusAdapterConstruct._get_adapter_config compute_mode
  = (PrometheusAdapterConstruct.nl
     ++ PrometheusAdapterConstruct.unlines (Wiring.config_lines compute_mode))%string.
Proof.
  unfold PrometheusAdapterConstruct._get_adapter_config, Wiring.config_lines.
  destruct (String.eqb compute_mode "fargate"); reflexivity.
Qed.

Lemma autoscaler_check g lines :
  forallb (fun h =>
             match manifest_at g h with
             | Some m =>
                 implb (String.eqb (m_kind m) "HorizontalPodAutoscaler")
                       (Nat.eqb (length (Wiring.targets_of g h)) 1 &&
                        match m_pods_metric m with
                        | Some metric => Check.one_of (Wiring.served_as metric) lines
                        | None => false
                        end)
             | None => true
             end) (refs g) = true ->
  forall h m, manifest_at g h = Some m ->
    m_kind m = "HorizontalPodAutoscaler" ->
    length (Wiring.targets_of g h) = 1
    /\ exists metric, m_pods_metric m = Some metric
                      /\ In (Wiring.served_as metric) lines.
Proof.
  rewrite forallb_forall. intros Hall h m Hm Hk.
  destruct (manifest_node _ _ _ Hm) as [c Hc].
  specialize (Hall h (node_in_refs _ _ _ Hc)). rewrite Hm, Hk in Hall.
  rewrite String.eqb_refl in Hall. cbn [implb] in Hall.
  apply andb_true_iff in Hall. destruct Hall as [H1 H2].
  split; [now apply Nat.eqb_eq |].
  destruct (m_pods_metric m) as [metric |]; [| discriminate].
  exists metric. split; [reflexivity |].
  unfold Check.one_of in H2. apply existsb_exists in H2.
  destruct H2 as (l & Hl & Heq). apply String.eqb_eq in Heq. now subst.
Qed.

(** X8: in either mode, every autoscaler of the built tree targets
    exactly one Deployment of the tree (same name, same namespace) and
    scales on a Pods metric that the adapter's rule document of that mode
    serves under that very name. *)
Theorem X8_autoscalers_are_served
    (ctx account region : option string) (app : Application.t) (g : tree)
    (h : ref) (m : manifest) :
  Application.synth ctx account region = inr (app, g) ->
  manifest_at g h = Some m ->
  m_kind m = "HorizontalPodAutoscaler" ->
  let compute_mode := mode (compute (eks (resolve_config ctx account region))) in
  length (Wiring.targets_of g h) = 1
  /\ exists metric lines,
       m_pods_metric m = Some metric
       /\ PrometheusAdapterConstruct._get_adapter_config compute_mode
          = (PrometheusAdapterConstruct.nl
             ++ PrometheusAdapterConstruct.unlines lines)%string
       /\ In (Wiring.served_as metric) lines.
Proof.
  intros H Hm Hk. cbv zeta. apply synth_cases in H.
  destruct H as [(Hmode & _ & _ & ->) | (Hmode & _ & _ & ->)]; rewrite Hmode.
  - destruct (autoscaler_check fargate_tree (Wiring.config_lines "fargate")
                ltac:(vm_compute; reflexivity) h m Hm Hk)
      as (Ht & metric & Hmetric & Hin).
    split; [exact Ht |]. exists metric, (Wiring.config_lines "fargate").
    split; [exact Hmetric |]. split; [apply adapter_config_lines | exact Hin].
  - destruct (autoscaler_check auto_mode_tree (Wiring.config_lines "auto-mode")
                ltac:(vm_compute; reflexivity) h m Hm Hk)
      as (Ht & metric & Hmetric & Hin).
    split; [exact Ht |]. exists metric, (Wiring.config_lines "auto-mode").
    split; [exact Hmetric |]. split; [apply adapter_config_lines | exact Hin].
Qed.

Lemma X8_autoscalers_are_served_witness :
  length (Wiring.targets_of auto_mode_tree 52) = 1
  /\ exists metric lines,
       m_pods_metric (k8s_hpa "sample-metrics-app-hpa" "default"
                              "sample-metrics-app" "sample_app_requests_rate")
       = Some metric
       /\ PrometheusAdapterConstruct._get_adapter_config "auto-mode"
          = (PrometheusAdapterConstruct.nl
             ++ PrometheusAdapterConstruct.unlines lines)%string
       /\ In (Wiring.served_as metric) lines.
Proof.
  apply (X8_autoscalers_are_served None None None auto_mode_app auto_mode_tree
           52 (k8s_hpa "sample-metrics-app-hpa" "default" "sample-metrics-app"
                       "sample_app_requests_rate")).
  - vm_compute. reflexivity.
  - vm_compute. reflexivity.
  - reflexivity.
Defined.

(** ** Running the builder on an arbitrary tree *)

Module BuilderFacts.





Lemma grows_refl t : grows t t [] [].
Proof. unfold grows. now rewrite !app_nil_r. Qed.

Lemma grows_trans t t1 t2 cs1 cs2 ds1 ds2 :
  grows t t1 cs1 ds1 -> grows t1 t2 cs2 ds2 ->
  grows t t2 (cs1 ++ cs2) (ds1 ++ ds2).
Proof.
  unfold grows. intros (H1 & H2 & H3) (K1 & K2 & K3).
  rewrite K1, K2, K3, H1, H2, H3, !app_assoc. auto.
Qed.

Lemma new_construct_inr sc name k t r t' :
  new_construct sc name k t = inr (r, t') ->
  taken t sc name = false
  /\ r = length (constructs t)
  /\ grows t t' [mkConstruct name sc k] [].
Proof.
  unfold new_construct, taken, grows.
  destruct (existsb _ (constructs t)); [discriminate |].
  intros [= <- <-]. simpl. now rewrite app_nil_r.
Qed.

Lemma new_construct_taken sc name k t :
  taken t sc name = true ->
  new_construct sc name k t = inl (DuplicateId sc name).
Proof. unfold new_construct, taken. now intros ->. Qed.


Lemma same_scope_refl sc : same_scope sc sc = true.
Proof. destruct sc; simpl; [apply Nat.eqb_refl | reflexivity]. Qed.

Lemma taken_after t t' cs ds sc name :
  grows t t' cs ds ->
  taken t' sc name
  = taken t sc name
    || existsb (fun c => same_scope (scope c) sc && String.eqb (id c) name) cs.
Proof.
  intros (H & _). unfold taken. now rewrite H, existsb_app.
Qed.

Lemma taken_kept t t' cs ds sc name :
  grows t t' cs ds -> taken t sc name = true -> taken t' sc name = true.
Proof. intros Hg H. rewrite (taken_after _ _ _ _ _ _ Hg), H. reflexivity. Qed.

Lemma add_dependency_inr x y t a t' :
  add_dependency x y t = inr (a, t') -> grows t t' [] [(x, y)].
Proof.
  unfold add_dependency, grows. intros [= _ <-]. simpl.
  now rewrite app_nil_r.
Qed.

Lemma bind_inr {A B} (c : M A) (k : A -> M B) t b t' :
  bind c k t = inr (b, t') ->
  exists a t1, c t = inr (a, t1) /\ k a t1 = inr (b, t').
Proof.
  unfold bind. destruct (c t) as [e | [a t1]]; [discriminate | eauto].
Qed.

Lemma bind_inl {A B} (c : M A) (k : A -> M B) t e :
  c t = inl e -> bind c k t = inl e.
Proof. unfold bind. now intros ->. Qed.

Lemma ret_inr {A} (a b : A) t t' : ret a t = inr (b, t') -> a = b /\ t' = t.
Proof. unfold ret. now intros [= <- <-]. Qed.

Lemma for_each_add_dependency x l : forall t a t',
  for_each l (fun d => add_dependency x d) t = inr (a, t') ->
  grows t t' [] (map (pair x) l).
Proof.
  induction l as [| d l IH]; intros t a t' H; simpl in H.
  - apply ret_inr in H. destruct H as [_ ->]. apply grows_refl.
  - apply bind_inr in H. destruct H as (u & t1 & H1 & H2).
    apply add_dependency_inr in H1. apply IH in H2.
    exact (grows_trans _ _ _ _ _ _ _ H1 H2).
Qed.

(** Looking a construct up after the tree has grown. *)
Lemma node_new t t' c cs ds :
  grows t t' (c :: cs) ds -> Order.node t' (length (constructs t)) = Some c.
Proof.
  intros (H & _). unfold Order.node. rewrite H.
  rewrite nth_error_app2 by lia. now rewrite Nat.sub_diag.
Qed.

Lemma node_kept t t' cs ds r c :
  grows t t' cs ds -> Order.node t r = Some c -> Order.node t' r = Some c.
Proof.
  intros (H & _) Hn. unfold Order.node in *. rewrite H.
  rewrite nth_error_app1; [exact Hn |].
  apply nth_error_Some. congruence.
Qed.

(** An edge declared between two resources orders them. *)
Lemma declared_edge_precedes g x y cx cy :
  In (x, y) (dependencies g) ->
  Order.node g x = Some cx -> is_resource (kind_of cx) = true ->
  Order.node g y = Some cy -> is_resource (kind_of cy) = true ->
  x <> y ->
  Order.precedes g y x.
Proof.
  intros Hin Hx Rx Hy Ry Hne. apply Order.precedes_edge.
  unfold Order.depends_on, Order.resource_at. rewrite Hx, Hy, Rx, Ry.
  apply Nat.eqb_neq in Hne. rewrite Hne. simpl.
  apply existsb_exists. exists (x, y). split; [exact Hin |].
  unfold Order.within. simpl. now rewrite !Nat.eqb_refl.
Qed.

End BuilderFacts.

Import BuilderFacts.

(** ** The reusable deployment construct *)

Lemma add_dependencies_inr x deps t a t' :
  DeploymentConstruct.add_dependencies x deps t = inr (a, t') ->
  grows t t' [] (match deps with Some l => map (pair x) l | None => [] end).
Proof.
  unfold DeploymentConstruct.add_dependencies.
  destruct deps as [[| d ds] |]; intros H.
  - apply ret_inr in H. destruct H as [_ ->]. apply grows_refl.
  - now apply for_each_add_dependency in H.
  - apply ret_inr in H. destruct H as [_ ->]. apply grows_refl.
Qed.

(** What one [add_...] call of the construct does to the tree. *)
Lemma add_with_dependencies_inr cluster name m deps (c : DeploymentConstruct.t)
    t r c' t' :
  (x <- add_manifest cluster name m ;;
   DeploymentConstruct.add_dependencies x deps ;;
   ret (x, DeploymentConstruct.appended c x)) t = inr ((r, c'), t') ->
  taken t (Some cluster) ("manifest-" ++ name) = false
  /\ r = length (constructs t)
  /\ c' = DeploymentConstruct.appended c r
  /\ grows t t'
       [mkConstruct ("manifest-" ++ name) (Some cluster) (KubernetesManifest m)]
       (match deps with Some l => map (pair r) l | None => [] end).
Proof.
  intros H. apply bind_inr in H. destruct H as (x & t1 & H1 & H).
  apply bind_inr in H. destruct H as (u & t2 & H2 & H).
  apply ret_inr in H. destruct H as [[= <- <-] ->].
  apply new_construct_inr in H1. destruct H1 as (Hfree & -> & Hg1).
  apply add_dependencies_inr in H2.
  split; [exact Hfree |]. split; [reflexivity |]. split; [reflexivity |].
  pose proof (grows_trans _ _ _ _ _ _ _ Hg1 H2) as G. exact G.
Qed.

(** X9: a Deployment, a Service declared with the Deployment as its
    dependency and an autoscaler declared with the Service as its
    dependency, all added through the construct, end up ordered
    Deployment, Service, autoscaler, on whatever tree the three calls
    succeed; the construct lists the three manifests in that order. *)
Theorem X9_deployment_construct_chain
    (c c1 c2 c3 : DeploymentConstruct.t) (t t1 t2 t3 : tree)
    (name service_name hpa_name namespace target : string)
    (dm sm : manifest) (deps : option (list ref))
    (metrics : option (list value)) (d s h : ref) :
  DeploymentConstruct.add_deployment c name dm deps t = inr ((d, c1), t1) ->
  DeploymentConstruct.add_service c1 service_name sm (Some [d]) t1
  = inr ((s, c2), t2) ->
  DeploymentConstruct.add_horizontal_pod_autoscaler c2 hpa_name namespace
    target metrics (Some [s]) t2 = inr ((h, c3), t3) ->
  Order.precedes t3 d s /\ Order.precedes t3 s h /\ Order.precedes t3 d h
  /\ DeploymentConstruct.manifests c3
     = (DeploymentConstruct.manifests c ++ [d; s; h])%list.
Proof.
  unfold DeploymentConstruct.add_deployment, DeploymentConstruct.add_service,
    DeploymentConstruct.add_horizontal_pod_autoscaler.
  intros H1 H2 H3.
  apply add_with_dependencies_inr in H1. destruct H1 as (_ & Hd & -> & G1).
  apply add_with_dependencies_inr in H2. destruct H2 as (_ & Hs & -> & G2).
  apply add_with_dependencies_inr in H3. destruct H3 as (_ & Hh & -> & G3).
  pose proof (node_new _ _ _ _ _ G1) as Nd. rewrite <- Hd in Nd.
  pose proof (node_new _ _ _ _ _ G2) as Ns. rewrite <- Hs in Ns.
  pose proof (node_new _ _ _ _ _ G3) as Nh. rewrite <- Hh in Nh.
  pose proof (node_kept _ _ _ _ _ _ G3 (node_kept _ _ _ _ _ _ G2 Nd)) as Nd3.
  pose proof (node_kept _ _ _ _ _ _ G3 Ns) as Ns3.
  assert (Hlen1 : length (constructs t1) = S (length (constructs t))).
  { destruct G1 as (E & _). rewrite E, length_app. simpl. lia. }
  assert (Hlen2 : length (constructs t2) = S (length (constructs t1))).
  { destruct G2 as (E & _). rewrite E, length_app. simpl. lia. }
  assert (Eds : In (s, d) (dependencies t3)).
  { destruct G3 as (_ & E3 & _). destruct G2 as (_ & E2 & _).
    rewrite E3, E2. simpl. rewrite !in_app_iff. simpl. auto. }
  assert (Ehs : In (h, s) (dependencies t3)).
  { destruct G3 as (_ & E3 & _). rewrite E3. rewrite in_app_iff. simpl. auto. }
  assert (Pds : Order.precedes t3 d s).
  { eapply declared_edge_precedes; eauto. lia. }
  assert (Psh : Order.precedes t3 s h).
  { eapply declared_edge_precedes; eauto. lia. }
  split; [exact Pds |]. split; [exact Psh |].
  split; [exact (Order.precedes_path _ _ _ _ Pds Psh) |].
  simpl. rewrite <- !app_assoc. reflexivity.
Qed.

Lemma X9_deployment_construct_chain_witness :
  exists c3 t3,
    Order.precedes t3 3 4 /\ Order.precedes t3 4 5 /\ Order.precedes t3 3 5
    /\ DeploymentConstruct.manifests c3 = [3; 4; 5].
Proof.
  do 2 eexists.
  eapply (X9_deployment_construct_chain small_construct _ _ _ small_tree _ _ _
            "web" "web" "web-hpa" "default" "web" web_deployment web_service
            None None 3 4 5).
  - reflexivity.
  - reflexivity.
  - reflexivity.
Defined.

(** X10: the construct names its manifests after the name with the dashes
    removed, so two Deployments whose names differ only in dashes cannot
    both be added: once the first is in the tree, adding the second fails
    on the duplicate identifier, whatever was added in between. *)
Theorem X10_deployment_names_collide_modulo_dashes
    (c c1 c2 : DeploymentConstruct.t) (t t1 t2 : tree)
    (name1 name2 : string) (m1 m2 : manifest)
    (deps1 deps2 : option (list ref)) (d : ref)
    (cs : list construct) (ds : list (ref * ref)) :
  DeploymentConstruct.undashed name1 = DeploymentConstruct.undashed name2 ->
  DeploymentConstruct.add_deployment c name1 m1 deps1 t = inr ((d, c1), t1) ->
  grows t1 t2 cs ds ->
  DeploymentConstruct.cluster c2 = DeploymentConstruct.cluster c ->
  DeploymentConstruct.add_deployment c2 name2 m2 deps2 t2
  = inl (DuplicateId (Some (DeploymentConstruct.cluster c))
           ("manifest-" ++ DeploymentConstruct.undashed name2 ++ "Deployment")).
Proof.
  unfold DeploymentConstruct.add_deployment. intros Hname H1 G Hc.
  apply add_with_dependencies_inr in H1. destruct H1 as (_ & _ & _ & G1).
  assert (Ht : taken t2 (Some (DeploymentConstruct.cluster c))
                 ("manifest-" ++ DeploymentConstruct.undashed name2 ++ "Deployment")
               = true).
  { apply (taken_kept _ _ _ _ _ _ G).
    rewrite (taken_after _ _ _ _ _ _ G1). simpl.
    rewrite Hname, Nat.eqb_refl, String.eqb_refl. simpl.
    apply orb_true_r. }
  rewrite Hc. apply bind_inl. unfold add_manifest.
  now apply new_construct_taken.
Qed.

Lemma X10_deployment_names_collide_modulo_dashes_witness :
  DeploymentConstruct.add_deployment small_construct "webapp" web_deployment
    None
    {| constructs := constructs small_tree
                     ++ [mkConstruct "manifest-webappDeployment" (Some 2)
                                     (KubernetesManifest web_deployment)];
       dependencies := [];
       stack_dependencies := [] |}
  = inl (DuplicateId (Some 2) "manifest-webappDeployment").
Proof.
  eapply (X10_deployment_names_collide_modulo_dashes
            small_construct _ small_construct small_tree _ _
            "web-app" "webapp" web_deployment web_deployment None None 3 [] []).
  - reflexivity.
  - reflexivity.
  - repeat split.
  - reflexivity.
Defined.

(** ** The cluster stack on an arbitrary configuration *)


Lemma taken_by_profile cluster a ns :
  existsb (fun c => same_scope (scope c) (Some cluster)
                    && String.eqb (id c) (profile_id ns))
          [profile_construct cluster a]
  = String.eqb (profile_id a) (profile_id ns).
Proof. simpl. now rewrite Nat.eqb_refl, orb_false_r. Qed.

Lemma ensure_profiles_inr cluster l : forall t u t',
  for_each l (fun ns => _ <- add_fargate_profile cluster (ns ++ "-fargate-profile") ns ;;
                        ret tt) t = inr (u, t') ->
  grows t t' (map (profile_construct cluster) l) []
  /\ NoDup l
  /\ forall ns, In ns l -> taken t (Some cluster) (profile_id ns) = false.
Proof.
  induction l as [| a l IH]; intros t u t' H; simpl in H.
  - apply ret_inr in H. destruct H as [_ ->].
    split; [apply grows_refl |]. split; [constructor | contradiction].
  - apply bind_inr in H. destruct H as (u1 & t1 & H1 & H).
    apply bind_inr in H1. destruct H1 as (r & t2 & H1 & Hr).
    apply ret_inr in Hr. destruct Hr as [_ ->].
    apply new_construct_inr in H1. destruct H1 as (Hfree & _ & G1).
    apply IH in H. destruct H as (G & Hnd & Hl).
    assert (Hafter : forall ns,
              taken t2 (Some cluster) (profile_id ns)
              = taken t (Some cluster) (profile_id ns)
                || String.eqb (profile_id a) (profile_id ns)).
    { intros ns. rewrite (taken_after _ _ _ _ _ _ G1).
      f_equal. apply taken_by_profile. }
    split; [exact (grows_trans _ _ _ _ _ _ _ G1 G) |]. split.
    + constructor; [| exact Hnd]. intros Hin. specialize (Hl a Hin).
      rewrite Hafter, String.eqb_refl, orb_true_r in Hl. discriminate.
    + intros ns [<- | Hin]; [exact Hfree |].
      specialize (Hl ns Hin). rewrite Hafter in Hl.
      now apply orb_false_iff in Hl.
Qed.




(** Symbolic run of a builder program: [G] records how the tree has
    grown from the start up to the tree [H] runs on. *)
Ltac grow G Gs :=
  let G' := fresh "G" in
  pose proof (grows_trans _ _ _ _ _ _ _ G Gs) as G';
  clear G Gs; rename G' into G; cbn [app] in G.

Ltac run H G :=
  lazymatch type of H with
  | bind _ _ _ = inr _ =>
      let a := fresh "a" in
      let t1 := fresh "t" in
      let Hc := fresh "Hc" in
      apply bind_inr in H; destruct H as (a & t1 & Hc & H);
      run Hc G; run H G
  | new_construct _ _ _ _ = inr _ =>
      let Gs := fresh "Gs" in
      let Ha := fresh "Ha" in
      apply new_construct_inr in H; destruct H as (_ & Ha & Gs);
      grow G Gs; try subst
  | add_dependency _ _ _ = inr _ =>
      let Gs := fresh "Gs" in
      apply add_dependency_inr in H; rename H into Gs; grow G Gs
  | ret _ _ = inr _ =>
      let Ha := fresh "Ha" in
      let Ht := fresh "Ht" in
      apply ret_inr in H; destruct H as [Ha Ht];
      try (injection Ha as Ha); subst
  | for_each _ (fun ns => _ <- add_fargate_profile _ _ ns ;; ret tt) _ = inr _ =>
      let Gs := fresh "Gs" in
      apply ensure_profiles_inr in H; destruct H as (Gs & _ & _);
      grow G Gs
  end.








(** ** Default arguments of the constructs *)

Ltac unfold_prometheus H :=
  unfold PrometheusConstruct.init, PrometheusConstruct._create_rbac,
    add_manifest, add_service_account in H.

(** X13: [PrometheusConstruct] and [PrometheusAdapterConstruct] both
    create the manifest [MonitoringNamespacePrometheus] when they are
    given no monitoring namespace.  Once a Prometheus construct has been
    built that way, building the adapter construct on the same cluster,
    again without a namespace, fails, whatever else was added to the tree
    in between. *)
Theorem X13_default_namespaces_collide
    (scope1 scope2 : ref) (id1 id2 : string) (cluster : ref)
    (compute_config : option ComputeConfig) (compute_mode : string)
    (t t1 t2 : tree) (p : PrometheusConstruct.t)
    (cs : list construct) (ds : list (ref * ref)) :
  PrometheusConstruct.init scope1 id1 cluster None compute_config t
  = inr (p, t1) ->
  grows t1 t2 cs ds ->
  exists e,
    PrometheusAdapterConstruct.init scope2 id2 cluster None compute_mode t2
    = inl e.
Proof.
  intros H G2. unfold_prometheus H.
  pose proof (grows_refl t) as G. run H G.
  assert (Ht : forall tz cz dz, grows t2 tz cz dz ->
            taken tz (Some cluster) "manifest-MonitoringNamespacePrometheus"
            = true).
  { intros tz cz dz Gz. apply (taken_kept _ _ _ _ _ _ Gz).
    apply (taken_kept _ _ _ _ _ _ G2).
    rewrite (taken_after _ _ _ _ _ _ G). cbn [existsb scope id same_scope].
    rewrite Nat.eqb_refl. simpl. rewrite !orb_true_r. reflexivity. }
  unfold PrometheusAdapterConstruct.init. unfold bind at 1.
  destruct (new_construct (Some scope2) id2 Construct t2)
    as [e | [adapter tn]] eqn:Hs.
  - exists e. reflexivity.
  - pose proof Hs as Hs'. apply new_construct_inr in Hs'.
    destruct Hs' as (_ & _ & Gn).
    eexists. apply bind_inl. unfold add_manifest.
    apply new_construct_taken. exact (Ht _ _ _ Gn).
Qed.

Lemma X13_default_namespaces_collide_witness :
  exists e,
    PrometheusAdapterConstruct.init 1 "PrometheusAdapter" 2 None "auto-mode"
      prometheus_tree
    = inl e.
Proof.
  eapply (X13_default_namespaces_collide 1 1 "Prometheus" "PrometheusAdapter"
            2 None "auto-mode" small_tree prometheus_tree prometheus_tree
            _ [] []).
  - vm_compute. reflexivity.
  - vm_compute. repeat split.
Defined.

(** X14: [OtelAppConstruct] cannot be built with the default value of
    [opentelemetry_namespace]: with [None] the construction fails on every
    tree, at the latest when the collector's service account is made to
    depend on the namespace. *)
Theorem X14_otel_app_needs_its_namespace
    (scope : ref) (construct_id : string) (cluster : ref)
    (compute_config : option ComputeConfig) (t : tree) :
  exists e,
    OtelAppConstruct.init scope construct_id cluster None compute_config t
    = inl e.
Proof.
  unfold OtelAppConstruct.init. unfold bind at 1.
  destruct (new_construct (Some scope) construct_id Construct t)
    as [e | [self t1]]; [exists e; reflexivity |].
  unfold bind at 1.
  destruct (add_manifest cluster "OtelCollectorSA" _ t1)
    as [e | [sa t2]]; [exists e; reflexivity |].
  eexists. reflexivity.
Qed.

(** ** The registry stack *)

Module EcrFacts.
Import EcrRepositoriesStack.











End EcrFacts.



(** ** The stacks that receive suppressions *)

Module NagFacts.
Import NagSuppressions.

Lemma substring_all (s : string) : substring 0 (String.length s) s = s.
Proof. induction s as [|c s IH]; simpl; [reflexivity | now rewrite IH]. Qed.

Lemma substring_skip (p s : string) (m : nat) :
  substring (String.length p) m (p ++ s) = substring 0 m s.
Proof. induction p as [|c p IH]; simpl; [reflexivity | exact IH]. Qed.

Lemma length_append (p s : string) :
  String.length (p ++ s) = String.length p + String.length s.
Proof. induction p as [|c p IH]; simpl; [reflexivity | now rewrite IH]. Qed.

Lemma substring_split (s : string) (k : nat) :
  k <= String.length s ->
  s = (substring 0 k s ++ substring k (String.length s - k) s)%string.
Proof.
  revert k; induction s as [|c s IH]; intros k Hk.
  - destruct k; reflexivity.
  - destruct k as [|k].
    + simpl. now rewrite substring_all.
    + simpl in Hk. simpl. f_equal. apply IH. lia.
Qed.

(** [endswith] holds exactly of the strings that end with the suffix. *)
Lemma endswith_iff (s suffix : string) :
  endswith s suffix = true <-> exists prefix, s = (prefix ++ suffix)%string.
Proof.
  unfold endswith. split.
  - intros H. apply andb_true_iff in H as [Hle Heq].
    apply Nat.leb_le in Hle. apply String.eqb_eq in Heq.
    exists (substring 0 (String.length s - String.length suffix) s).
    pose proof (substring_split s (String.length s - String.length suffix))
      as Hs.
    replace (String.length s - (String.length s - String.length suffix))
      with (String.length suffix) in Hs by lia.
    rewrite Heq in Hs. apply Hs. lia.
  - intros [p ->]. rewrite length_append.
    apply andb_true_iff. split.
    + apply Nat.leb_le. lia.
    + apply String.eqb_eq.
      replace (String.length p + String.length suffix - String.length suffix)
        with (String.length p) by lia.
      rewrite substring_skip. apply substring_all.
Qed.

Lemma first_stack_some (suffix : string) (stacks : list string)
    (from i : nat) :
  first_stack suffix stacks from = Some i ->
  exists k name,
    i = from + k
    /\ nth_error stacks k = Some name
    /\ endswith name suffix = true
    /\ forall j earlier, j < k -> nth_error stacks j = Some earlier ->
         endswith earlier suffix = false.
Proof.
  revert from; induction stacks as [|n rest IH]; intros from H;
    [discriminate|].
  simpl in H. destruct (endswith n suffix) eqn:E.
  - injection H as <-. exists 0, n.
    split; [lia|]. split; [reflexivity|]. split; [exact E|].
    intros j e Hj. lia.
  - apply IH in H as (k & name & -> & Hn & He & Hfirst).
    exists (S k), name.
    split; [lia|]. split; [exact Hn|]. split; [exact He|].
    intros [|j] e Hj Hnth.
    + simpl in Hnth. injection Hnth as <-. exact E.
    + simpl in Hnth. apply (Hfirst j); [lia | exact Hnth].
Qed.

Lemma first_stack_none (suffix : string) (stacks : list string) (from : nat) :
  first_stack suffix stacks from = None
  <-> existsb (fun n => endswith n suffix) stacks = false.
Proof.
  revert from; induction stacks as [|n rest IH]; intros from; simpl.
  - tauto.
  - destruct (endswith n suffix); simpl; [split; discriminate | apply IH].
Qed.

Lemma first_stack_found (suffix : string) (stacks : list string) :
  match first_stack suffix stacks 0 with
  | Some i =>
      existsb (fun n => endswith n suffix) stacks = true
      /\ exists name,
           nth_error stacks i = Some name
           /\ (exists prefix, name = (prefix ++ suffix)%string)
           /\ forall j earlier, j < i -> nth_error stacks j = Some earlier ->
                endswith earlier suffix = false
  | None => existsb (fun n => endswith n suffix) stacks = false
  end.
Proof.
  destruct (first_stack suffix stacks 0) as [i|] eqn:E.
  - split.
    + destruct (existsb _ stacks) eqn:Ex; [reflexivity|].
      apply (first_stack_none suffix stacks 0) in Ex. congruence.
    + apply first_stack_some in E as (k & name & -> & Hn & He & Hfirst).
      exists name. simpl. split; [exact Hn|]. split; [|exact Hfirst].
      apply endswith_iff. exact He.
  - apply (first_stack_none suffix stacks 0). exact E.
Qed.

End NagFacts.

(** X16 ([add_nag_suppressions]): for any list of stacks, every call
    goes to a stack of the list whose name ends with the name the call's
    group looks for, and to the first such stack of the list; a group none
    of whose stacks is in the list makes no call, so that the number of
    calls is one for a network stack, one for an observability stack and
    four for a cluster stack. *)
Theorem X16_suppressions_go_to_the_first_matching_stack
    (stacks : list string) :
  (forall c, In c (NagSuppressions.add_nag_suppressions stacks) ->
     exists name,
       nth_error stacks (NagSuppressions.target c) = Some name
       /\ (exists prefix,
             name = (prefix ++ NagSuppressions.suffix_of c)%string)
       /\ forall j earlier,
            j < NagSuppressions.target c ->
            nth_error stacks j = Some earlier ->
            NagSuppressions.endswith earlier (NagSuppressions.suffix_of c)
            = false)
  /\ length (NagSuppressions.add_nag_suppressions stacks)
     = (if existsb (fun n => NagSuppressions.endswith n "NetworkStack") stacks
        then 1 else 0)
       + (if existsb (fun n => NagSuppressions.endswith n "ObservabilityStack")
               stacks
          then 1 else 0)
       + (if existsb (fun n => NagSuppressions.endswith n "EksClusterStack")
               stacks
          then 4 else 0).
Proof.
  unfold NagSuppressions.add_nag_suppressions.
  pose proof (NagFacts.first_stack_found "NetworkStack" stacks) as Hv.
  pose proof (NagFacts.first_stack_found "ObservabilityStack" stacks) as Ho.
  pose proof (NagFacts.first_stack_found "EksClusterStack" stacks) as He.
  destruct (NagSuppressions.first_stack "NetworkStack" stacks 0) as [v|];
  destruct (NagSuppressions.first_stack "ObservabilityStack" stacks 0) as [o|];
  destruct (NagSuppressions.first_stack "EksClusterStack" stacks 0) as [e|];
    repeat match goal with
           | H : _ /\ _ |- _ => destruct H as [? H]
           end;
    (split;
     [ intros c Hc; simpl in Hc;
       repeat match goal with
              | H : _ \/ _ |- _ => destruct H as [<- | H]
              | H : False |- _ => destruct H
              end; simpl; assumption
     | repeat match goal with
              | H : existsb _ _ = _ |- _ => rewrite H; clear H
              end; reflexivity ]).
Qed.

Lemma X16_suppressions_go_to_the_first_matching_stack_witness :
  In (NagSuppressions.add_stack_suppressions 2 NagSuppressions.eks_rules)
     (NagSuppressions.add_nag_suppressions NagSuppressions.app_stacks)
  /\ (exists name,
        nth_error NagSuppressions.app_stacks 2 = Some name
        /\ (exists prefix, name = (prefix ++ "EksClusterStack")%string)
        /\ forall j earlier,
             j < 2 ->
             nth_error NagSuppressions.app_stacks j = Some earlier ->
             NagSuppressions.endswith earlier "EksClusterStack" = false)
  /\ length (NagSuppressions.add_nag_suppressions NagSuppressions.app_stacks)
     = 6
  /\ NagSuppressions.add_nag_suppressions ["EcrStack"; "KubectlLayerStack"]
     = [].
Proof.
  split; [vm_compute; auto|].
  split.
  - apply (proj1 (X16_suppressions_go_to_the_first_matching_stack
                    NagSuppressions.app_stacks)
             (NagSuppressions.add_stack_suppressions 2
                NagSuppressions.eks_rules)).
    vm_compute. auto.
  - split; reflexivity.
Defined.

(** ** The manifests of a container application *)

(** X17 ([ContainerAppConstruct.create_deployment_manifest],
    [create_service_manifest]): whatever the arguments, the Service and
    the Deployment of one construct carry the same name and the Service
    selects by the labels the Deployment's selector matches, namely
    [app] set to the lower-cased construct id.  The Deployment's pods carry
    the labels of the Deployment, which are the caller's when given: the
    selector of the Deployment, and so the Service, selects these pods exactly
    when [labels] is left out or sets [app] to the lower-cased id. *)
Theorem X17_container_app_selects_its_pods_iff_app_label
    (self : ContainerAppConstruct.t) (namespace : string)
    (replicas container_port : Z)
    (resources : option ContainerAppConstruct.json)
    (env_vars : option (list ContainerAppConstruct.json))
    (annotations labels : option (list (string * string)))
    (service_namespace : string) (port target_port : Z)
    (service_type : string) :
  let deployment :=
    ContainerAppConstruct.create_deployment_manifest self namespace replicas
      container_port resources env_vars annotations labels in
  let service :=
    ContainerAppConstruct.create_service_manifest self service_namespace port
      target_port service_type in
  let app_label :=
    ContainerAppConstruct.JDict
      [("app", ContainerAppConstruct.JStr
                 (ContainerAppConstruct.lower
                    (ContainerAppConstruct.node_id self)))] in
  ContainerAppConstruct.path ["spec"; "selector"] service = Some app_label
  /\ ContainerAppConstruct.path ["spec"; "selector"; "matchLabels"] deployment
     = Some app_label
  /\ ContainerAppConstruct.path ["metadata"; "name"] service
     = ContainerAppConstruct.path ["metadata"; "name"] deployment
  /\ ContainerAppConstruct.path ["spec"; "template"; "metadata"; "labels"]
       deployment
     = ContainerAppConstruct.path ["metadata"; "labels"] deployment
  /\ ContainerAppConstruct.service_selects service deployment
     = ContainerAppConstruct.selects_own_pods deployment
  /\ (ContainerAppConstruct.selects_own_pods deployment = true
      <-> labels = None
          \/ exists given,
               labels = Some given
               /\ ContainerAppConstruct.str_lookup "app" given
                  = Some (ContainerAppConstruct.lower
                            (ContainerAppConstruct.node_id self))).
Proof.
  intros deployment service app_label.
  assert (Hlook : forall d k,
             ContainerAppConstruct.lookup k
               (map (fun kv => (fst kv, ContainerAppConstruct.JStr (snd kv))) d)
             = option_map ContainerAppConstruct.JStr
                 (ContainerAppConstruct.str_lookup k d)).
  { induction d as [|[k' v] d IH]; intros k; simpl; [reflexivity|].
    destruct (String.eqb k k'); [reflexivity | apply IH]. }
  split; [reflexivity|]. split; [reflexivity|]. split; [reflexivity|].
  split; [reflexivity|]. split; [reflexivity|].
  unfold ContainerAppConstruct.selects_own_pods.
  change (ContainerAppConstruct.path ["spec"; "selector"; "matchLabels"]
            deployment) with (Some app_label).
  change (ContainerAppConstruct.path
            ["spec"; "template"; "metadata"; "labels"] deployment)
    with (Some (ContainerAppConstruct.str_dict
                  (ContainerAppConstruct.if_none labels
                     (ContainerAppConstruct.default_labels self)))).
  unfold app_label, ContainerAppConstruct.selects,
    ContainerAppConstruct.str_dict.
  cbn [forallb fst snd]. rewrite Hlook, andb_true_r.
  destruct labels as [given|]; cbn [ContainerAppConstruct.if_none].
  - destruct (ContainerAppConstruct.str_lookup "app" given) as [b|] eqn:E;
      cbn [option_map].
    + split.
      * intros H. apply String.eqb_eq in H. right. exists given.
        split; [reflexivity|]. now subst b.
      * intros [H | (g & Hg & Hl)]; [discriminate|].
        injection Hg as <-. rewrite E in Hl. injection Hl as ->.
        apply String.eqb_refl.
    + split; [discriminate|].
      intros [H | (g & Hg & Hl)]; [discriminate|].
      injection Hg as <-. congruence.
  - unfold ContainerAppConstruct.default_labels. cbn.
    rewrite String.eqb_refl. tauto.
Qed.

Lemma X17_container_app_selects_its_pods_iff_app_label_witness :
  ContainerAppConstruct.selects_own_pods
    (ContainerAppConstruct.create_deployment_manifest
       ContainerAppConstruct.web_app "default" 2 8080 None None None None)
  = true
  /\ ContainerAppConstruct.selects_own_pods
       (ContainerAppConstruct.create_deployment_manifest
          ContainerAppConstruct.web_app "default" 2 8080 None None None
          (Some [("tier", "web")]))
     = false
  /\ ContainerAppConstruct.path
       ["spec"; "template"; "metadata"; "annotations"]
       (ContainerAppConstruct.create_deployment_manifest
          ContainerAppConstruct.web_app "default" 2 8080 None None None None)
     = Some (ContainerAppConstruct.str_dict
               [("prometheus.io/scrape", "true");
                ("prometheus.io/port", "8080")]).
Proof.
  split.
  - apply (proj2 (proj2 (proj2 (proj2 (proj2
             (X17_container_app_selects_its_pods_iff_app_label
                ContainerAppConstruct.web_app "default" 2 8080 None None None
                None "default" 80 8080 "ClusterIP")))))).
    left. reflexivity.
  - split; reflexivity.
Defined.

(** ** The retention of the log groups *)

(** X18 ([ObservabilityStack._get_retention_days]): for every number of
    days, also zero or negative, the period returned keeps logs for at
    least that many days and is the shortest of the stack's periods that
    does; it is [INFINITE] exactly beyond 3653 days.  Asking for more days
    never gives a shorter period, and asking for exactly the length of the
    period returned gives that period again. *)
Theorem X18_retention_is_the_shortest_period_that_keeps_the_days
    (days : Z) :
  let r := ObservabilityStack._get_retention_days days in
  ObservabilityStack.keeps r days = true
  /\ (forall r', ObservabilityStack.keeps r' days = true ->
        ObservabilityStack.no_longer_than r r' = true)
  /\ (r = ObservabilityStack.INFINITE <-> (3653 < days)%Z)
  /\ (forall more, (days <= more)%Z ->
        ObservabilityStack.no_longer_than r
          (ObservabilityStack._get_retention_days more) = true)
  /\ (forall n, ObservabilityStack.day_count r = Some n ->
        ObservabilityStack._get_retention_days n = r).
Proof.
  assert (Hmin : forall d r',
             ObservabilityStack.keeps r' d = true ->
             ObservabilityStack.no_longer_than
               (ObservabilityStack._get_retention_days d) r' = true).
  { intros d r' Hk. unfold ObservabilityStack._get_retention_days.
    repeat match goal with
           | |- context [(d <=? ?k)%Z] =>
               destruct (Z.leb_spec d k)
           end;
      destruct r'; try reflexivity;
      unfold ObservabilityStack.keeps in Hk; simpl in Hk;
      try discriminate;
      apply Z.leb_le in Hk; lia. }
  assert (Hkeep : forall d,
             ObservabilityStack.keeps
               (ObservabilityStack._get_retention_days d) d = true).
  { intros d. unfold ObservabilityStack._get_retention_days.
    repeat match goal with
           | |- context [(d <=? ?k)%Z] =>
               destruct (Z.leb_spec d k)
           end;
      unfold ObservabilityStack.keeps; simpl; try reflexivity;
      apply Z.leb_le; lia. }
  intros r. split; [apply Hkeep|]. split; [apply Hmin|]. split.
  - unfold r, ObservabilityStack._get_retention_days.
    repeat match goal with
           | |- context [(days <=? ?k)%Z] =>
               destruct (Z.leb_spec days k)
           end;
      split; intros Hinf; try discriminate; try reflexivity; lia.
  - split.
    + intros more Hmore. apply Hmin.
      pose proof (Hkeep more) as Hk. revert Hk.
      unfold ObservabilityStack.keeps.
      destruct (ObservabilityStack.day_count
                  (ObservabilityStack._get_retention_days more));
        [|reflexivity].
      intros Hk. apply Z.leb_le in Hk. apply Z.leb_le. lia.
    + intros n. unfold r, ObservabilityStack._get_retention_days.
      repeat match goal with
             | |- context [(days <=? ?k)%Z] =>
                 destruct (Z.leb_spec days k)
             end;
        simpl; intros Hn; try discriminate; injection Hn as <-; reflexivity.
Qed.

Lemma X18_retention_is_the_shortest_period_that_keeps_the_days_witness :
  ObservabilityStack._get_retention_days 10 = ObservabilityStack.TWO_WEEKS
  /\ ObservabilityStack.no_longer_than
       (ObservabilityStack._get_retention_days 10)
       ObservabilityStack.ONE_MONTH = true
  /\ ObservabilityStack._get_retention_days (-2) = ObservabilityStack.ONE_DAY
  /\ ObservabilityStack.log_group_retention
       (monitoring (development None None))
     = ObservabilityStack.ONE_WEEK.
Proof.
  split; [reflexivity|]. split.
  - apply (proj1 (proj2
             (X18_retention_is_the_shortest_period_that_keeps_the_days 10))
             ObservabilityStack.ONE_MONTH).
    reflexivity.
  - split; reflexivity.
Defined.
